(** * Weather scripts and weather chatbots: a shallow embedding

    The repository holds two kinds of scripts:

    - [weather.py]: reads a latitude and a longitude from the terminal,
      validates them and performs one lookup at the weather provider;
    - [weather_bot.py] (Claude), [weather_bot_gemini.py], [weather_bot_openai.py]
      and [ex03/weather_bot_groq.py]: the four bindings of one pipeline
      "classify the query, extract a location, fetch the weather, compose a
      reply", driven by an interactive loop.

    Python values are modelled as follows.

    - [str] is [string]; the model covers ASCII text: [strip], [upper] and
      [lower] act on the code points below 128 as Python does and leave the
      others alone.
    - [float] is the primitive binary64 type [float]; [int] is [Z].
    - The value [response.json()] returns is a [json] tree; Python's [None]
      is [JNull].
    - An exception is a value of [exn]; a computation that may print, call a
      backend and raise is a function [state -> result A * state], and the
      effects performed before a [raise] stay in the state.
    - The language-model backend and the weather provider are parameters of
      the development: arbitrary functions of the request and of an abstract
      world, so every theorem holds for every behaviour of the backends. *)

From Stdlib Require Import String Ascii List ZArith Bool Lia Floats.
From Stdlib Require Import Decimal DecimalString.
Import ListNotations.

Set Warnings "-inexact-float".

Local Open Scope list_scope.
Local Open Scope string_scope.

(** ** Python string builtins *)

Module PyStr.

(** [str.isspace] on one ASCII character: TAB, LF, VT, FF, CR, the four
    separators FS, GS, RS, US, and the space. *)
Definition isspace (c : ascii) : bool :=
  let n := nat_of_ascii c in
  ((9 <=? n)%nat && (n <=? 13)%nat) || ((28 <=? n)%nat && (n <=? 32)%nat).

Definition is_upper (c : ascii) : bool :=
  let n := nat_of_ascii c in (65 <=? n)%nat && (n <=? 90)%nat.

Definition is_lower (c : ascii) : bool :=
  let n := nat_of_ascii c in (97 <=? n)%nat && (n <=? 122)%nat.

Definition upper_char (c : ascii) : ascii :=
  if is_lower c then ascii_of_nat (nat_of_ascii c - 32) else c.

Definition lower_char (c : ascii) : ascii :=
  if is_upper c then ascii_of_nat (nat_of_ascii c + 32) else c.

Fixpoint map_chars (f : ascii -> ascii) (s : string) : string :=
  match s with
  | EmptyString => EmptyString
  | String c r => String (f c) (map_chars f r)
  end.

(** [s.upper()] and [s.lower()]. *)
Definition upper : string -> string := map_chars upper_char.
Definition lower : string -> string := map_chars lower_char.

Fixpoint lstrip (s : string) : string :=
  match s with
  | EmptyString => EmptyString
  | String c r => if isspace c then lstrip r else s
  end.

Fixpoint rstrip (s : string) : string :=
  match s with
  | EmptyString => EmptyString
  | String c r =>
      match rstrip r with
      | EmptyString => if isspace c then EmptyString else String c EmptyString
      | r' => String c r'
      end
  end.

(** [s.strip()]: leading and trailing whitespace removed. *)
Definition strip (s : string) : string := rstrip (lstrip s).

(** Truth value of a string: [not s] holds for the empty string only. *)
Definition truthy (s : string) : bool :=
  match s with EmptyString => false | String _ _ => true end.

(** [x in l] for a list of strings. *)
Fixpoint mem (x : string) (l : list string) : bool :=
  match l with
  | [] => false
  | y :: r => String.eqb x y || mem x r
  end.

(** [needle in s] for two strings. *)
Fixpoint contains (needle s : string) : bool :=
  String.prefix needle s
  || match s with
     | EmptyString => false
     | String _ r => contains needle r
     end.

(** [str(n)] for an [int]. *)
Definition str_of_int (z : Z) : string := NilZero.string_of_int (Z.to_int z).

(** Every character of the string is whitespace. *)
Fixpoint all_space (s : string) : bool :=
  match s with
  | EmptyString => true
  | String c r => isspace c && all_space r
  end.

(** Every character of the string satisfies [p]. *)
Fixpoint all_chars (p : ascii -> bool) (s : string) : bool :=
  match s with
  | EmptyString => true
  | String c r => p c && all_chars p r
  end.

(** Two characters are the same letter up to case (or the same character). *)
Definition same_letter (a b : ascii) : bool :=
  Ascii.eqb a b
  || (is_lower a && Ascii.eqb b (upper_char a))
  || (is_upper a && Ascii.eqb b (lower_char a)).

(** [t] is the word [w] up to the case of its letters. *)
Fixpoint caseless_eq (t w : string) : bool :=
  match t, w with
  | EmptyString, EmptyString => true
  | String a t', String b w' => same_letter a b && caseless_eq t' w'
  | _, _ => false
  end.

(** [needle in s]: [needle] occurs in [s] as a contiguous substring. *)
Definition occurs_in (needle s : string) : Prop :=
  exists pre suf, s = pre ++ needle ++ suf.

End PyStr.

Example strip_ex : PyStr.strip "  Yes
 " = "Yes".
Proof. reflexivity. Qed.

Example upper_ex : PyStr.upper "yEs-1" = "YES-1".
Proof. reflexivity. Qed.

Example str_of_int_ex :
  PyStr.str_of_int 0 = "0" /\ PyStr.str_of_int 404%Z = "404" /\ PyStr.str_of_int (-7)%Z = "-7".
Proof. repeat split; reflexivity. Qed.

(** ** Exceptions, effects and the values of the weather provider *)

(** The exception classes the scripts can meet.  All of them derive from
    [Exception]; the keyboard interrupt, which does not, is an event of the
    terminal (see [stdin_event]). *)
Inductive exn_class :=
| ValueError | KeyError | TypeError | EOFError
| RequestException        (* requests.exceptions.RequestException *)
| OtherException.         (* any other subclass of Exception *)

(** An exception: its class and [str(e)]. *)
Record exn := mk_exn { exn_cls : exn_class; exn_msg : string }.

Inductive result (A : Type) :=
| Ok (a : A)
| Raise (e : exn).
Arguments Ok {A} a.
Arguments Raise {A} e.

(** A JSON document as [json.loads] returns it. *)
#[local] Unset Elimination Schemes.
Inductive json :=
| JNull
| JBool (b : bool)
| JInt (z : Z)
| JFloat (f : float)
| JStr (s : string)
| JList (l : list json)
| JObj (kvs : list (string * json)).
#[local] Set Elimination Schemes.

(** What the terminal delivers to one call of [input()]: a line, or Ctrl-C.
    The end of the list is the end of the input ([EOFError]). *)
Inductive stdin_event :=
| Line (s : string)
| Interrupt.

(** The instruction template of a language-model request. *)
Inductive stage := Extract | Classify | Compose.

(** The values [generate_weather_response] interpolates into the request. *)
Record weather_context := mk_ctx {
  ctx_location : json;
  ctx_country : json;
  ctx_temperature : json;
  ctx_humidity : json;
  ctx_cloud : json;
  ctx_wind : json;
  ctx_condition : json }.

(** One call of the language-model client.  The fixed instruction text is
    determined by the script and the stage; the request carries, besides
    them, the model name, the limits, and the interpolated values. *)
Record llm_request := mk_llm {
  rq_model : string;
  rq_stage : stage;
  rq_max_tokens : option nat;
  rq_temperature : option float;
  rq_query : string;
  rq_weather : option weather_context }.

(** The [q] parameter of the weather provider. *)
Inductive locator :=
| ByName (location_name : string)
| ByCoords (latitude longitude : float).

(** [requests.get(url, params={key, q, aqi: no}, timeout=10)]. *)
Record http_request := mk_http { hq_q : locator; hq_timeout : Z }.

(** The response: [status_code], [text], and what [json()] does. *)
Record http_response := mk_resp {
  status_code : Z;
  text : string;
  json_body : result json }.

(** The observable actions of a script, in the order they happen. *)
Inductive event :=
| EvLLM (r : llm_request)      (* a call of the language-model client *)
| EvHTTP (r : http_request)    (* a GET at the weather provider *)
| EvPrint (s : string)         (* print(s) *)
| EvInput (prompt : string).   (* input(prompt) *)

Module Json.

(** [v[k]] for a string key: a dict looks the key up, anything else is not
    subscriptable by a string. *)
Fixpoint lookup (k : string) (kvs : list (string * json)) : option json :=
  match kvs with
  | [] => None
  | (k', v) :: r => if String.eqb k k' then Some v else lookup k r
  end.

Definition getitem (v : json) (k : string) : result json :=
  match v with
  | JObj kvs =>
      match lookup k kvs with
      | Some x => Ok x
      | None => Raise (mk_exn KeyError ("'" ++ k ++ "'"))
      end
  | JStr _ => Raise (mk_exn TypeError "string indices must be integers")
  | JList _ => Raise (mk_exn TypeError "list indices must be integers or slices, not str")
  | _ => Raise (mk_exn TypeError "object is not subscriptable")
  end.

(** Truth value: [not v] holds for [None], [False], zero and the empty
    string, list and dict. *)
Definition truthy (v : json) : bool :=
  match v with
  | JNull => false
  | JBool b => b
  | JInt z => negb (Z.eqb z 0)
  | JFloat f => negb (PrimFloat.eqb f 0%float)
  | JStr s => PyStr.truthy s
  | JList l => match l with [] => false | _ => true end
  | JObj kvs => match kvs with [] => false | _ => true end
  end.

(** [v > 50]: numbers compare (a [bool] counts as 0 or 1, an [int] and a
    [float] compare by value), anything else is a [TypeError]. *)
Definition gt_50 (v : json) : result bool :=
  match v with
  | JInt z => Ok (Z.ltb 50 z)
  | JBool b => Ok (Z.ltb 50 (if b then 1 else 0))
  | JFloat f => Ok (PrimFloat.ltb 50%float f)
  | _ => Raise (mk_exn TypeError "'>' not supported between these instances")
  end.

End Json.

(** ** The monad of the scripts *)

Section Effects.
(** The state of everything outside the script (the providers, the
    network), left abstract. *)
Variable World : Type.

Record state := mk_state { world : World; trace : list event }.

Definition M (A : Type) : Type := state -> result A * state.

Definition ret {A} (a : A) : M A := fun st => (Ok a, st).

Definition bind {A B} (c : M A) (k : A -> M B) : M B :=
  fun st =>
    match c st with
    | (Ok a, st') => k a st'
    | (Raise e, st') => (Raise e, st')
    end.

Definition lift {A} (r : result A) : M A := fun st => (r, st).

(** [try: body except Exception as e: handler e]. *)
Definition try_except {A} (body : M A) (handler : exn -> M A) : M A :=
  fun st =>
    match body st with
    | (Ok a, st') => (Ok a, st')
    | (Raise e, st') => handler e st'
    end.

Definition emit (ev : event) (st : state) : state :=
  mk_state (world st) (trace st ++ [ev])%list.

Definition print (s : string) : M unit := fun st => (Ok tt, emit (EvPrint s) st).
End Effects.

Arguments mk_state {World} world trace.
Arguments world {World} s.
Arguments trace {World} s.
Arguments ret {World A} a.
Arguments bind {World A B} c k.
Arguments lift {World A} r.
Arguments try_except {World A} body handler.
Arguments emit {World} ev st.
Arguments print {World} s.

Declare Scope py_scope.
Delimit Scope py_scope with py.
Notation "x <- c ;; k" := (bind c (fun x => k))
  (at level 61, c at next level, right associativity) : py_scope.
Notation "c ;; k" := (bind c (fun _ => k))
  (at level 61, right associativity) : py_scope.

(** ** The chatbots: [weather_bot.py] and its three siblings *)

Module WeatherBot.

(** The script: which language-model client it is written against. *)
Inductive binding := Claude | Gemini | OpenAI | Groq.

Definition api_name (b : binding) : string :=
  match b with
  | Claude => "Claude" | Gemini => "Gemini" | OpenAI => "OpenAI" | Groq => "Groq"
  end.

Definition model_name (b : binding) : string :=
  match b with
  | Claude => "claude-3-sonnet-20240229"
  | Gemini => "gemini-pro"
  | OpenAI => "gpt-3.5-turbo"
  | Groq => "llama3-70b-8192"
  end.

Definition max_tokens (b : binding) (s : stage) : option nat :=
  match b, s with
  | Gemini, _ => None
  | Claude, Extract => Some 50
  | (OpenAI | Groq), Extract => Some 20
  | _, Classify => Some 5
  | _, Compose => Some 150
  end.

Definition temperature (b : binding) (s : stage) : option float :=
  match b, s with
  | (Claude | Gemini), _ => None
  | _, (Extract | Classify) => Some 0.1%float
  | _, Compose => Some 0.7%float
  end.

Definition request (b : binding) (s : stage) (query : string)
    (ctx : option weather_context) : llm_request :=
  mk_llm (model_name b) s (max_tokens b s) (temperature b s) query ctx.

(** [location == "UNKNOWN"] in the Claude and Gemini scripts,
    [location.upper() == "UNKNOWN"] in the OpenAI and Groq scripts. *)
Definition is_unknown (b : binding) (location : string) : bool :=
  match b with
  | Claude | Gemini => String.eqb location "UNKNOWN"
  | OpenAI | Groq => String.eqb (PyStr.upper location) "UNKNOWN"
  end.

(** [is_weather == "YES"] in the Claude and Gemini scripts,
    [is_weather.upper() == "YES"] in the OpenAI and Groq scripts. *)
Definition is_yes (b : binding) (is_weather : string) : bool :=
  match b with
  | Claude | Gemini => String.eqb is_weather "YES"
  | OpenAI | Groq => String.eqb (PyStr.upper is_weather) "YES"
  end.

(** The OpenAI and Groq scripts also print the body of a failed lookup. *)
Definition prints_response_text (b : binding) : bool :=
  match b with
  | Claude | Gemini => false
  | OpenAI | Groq => true
  end.

Definition redirect_message : string :=
  "I'm a weather assistant. Please ask me about the weather in a specific location.".

Definition clarification_message : string :=
  "I couldn't determine which location you're asking about. Could you please specify a city or place?".

Definition not_found_message (location : string) : string :=
  "I couldn't find weather information for '" ++ location
  ++ "'. Please check the spelling or try a different location.".

Definition newline : string := String (ascii_of_nat 10) EmptyString.

Inductive control := Break | Continue.

Inductive loop_status := Exited | Running.

Section Pipeline.
Variable World : Type.

(** The language-model client: the text of the first completion, or the
    exception the call (or the access to its reply) raises. *)
Variable llm_backend : llm_request -> World -> result string * World.

(** [requests.get]: a response, or the exception of a transport failure. *)
Variable weather_backend : http_request -> World -> result http_response * World.

(** [repr] of a float, and of a list or a dict. *)
Variable float_repr : float -> string.
Variable container_repr : json -> string.

Local Open Scope py_scope.

Definition call_llm (rq : llm_request) : M World string :=
  fun st =>
    let (r, w) := llm_backend rq (world st) in
    (r, mk_state w (trace st ++ [EvLLM rq])%list).

Definition requests_get (rq : http_request) : M World http_response :=
  fun st =>
    let (r, w) := weather_backend rq (world st) in
    (r, mk_state w (trace st ++ [EvHTTP rq])%list).

(** How an f-string renders a value: [str(v)]. *)
Definition py_str (v : json) : string :=
  match v with
  | JNull => "None"
  | JBool true => "True"
  | JBool false => "False"
  | JInt z => PyStr.str_of_int z
  | JFloat f => float_repr f
  | JStr s => s
  | JList _ | JObj _ => container_repr v
  end.

Definition get_weather_by_location (b : binding) (location_name : string) : M World json :=
  try_except
    (response <- requests_get (mk_http (ByName location_name) 10) ;;
     if Z.eqb (status_code response) 200 then lift (json_body response)
     else if Z.eqb (status_code response) 400 then ret JNull
     else
       print ("Error: API request failed with status code "
              ++ PyStr.str_of_int (status_code response)) ;;
       (if prints_response_text b
        then print ("Response: " ++ text response) else ret tt) ;;
       ret JNull)
    (fun e => print ("Error connecting to weather API: " ++ exn_msg e) ;; ret JNull).

Definition extract_location_from_query (b : binding) (query : string)
    : M World (option string) :=
  try_except
    (reply <- call_llm (request b Extract query None) ;;
     let location := PyStr.strip reply in
     if is_unknown b location then ret None else ret (Some location))
    (fun e =>
       print ("Error connecting to " ++ api_name b ++ " API: " ++ exn_msg e) ;;
       ret None).

Definition is_weather_query (b : binding) (query : string) : M World bool :=
  try_except
    (reply <- call_llm (request b Classify query None) ;;
     let is_weather := PyStr.strip reply in
     ret (is_yes b is_weather))
    (fun e =>
       print ("Error connecting to " ++ api_name b ++ " API: " ++ exn_msg e) ;;
       ret true).

(** The sentence of the [except] branch of [generate_weather_response]. *)
Definition fallback_response (location temperature humidity cloud wind : json)
    : M World string :=
  many <- lift (Json.gt_50 cloud) ;;
  ret ("The current weather in " ++ py_str location
       ++ " is a temperature of " ++ py_str temperature
       ++ " degrees (C), a humidity of " ++ py_str humidity ++ "%, "
       ++ (if many : bool then "there are a lot of clouds" else "there are few clouds")
       ++ " in the sky and a wind of " ++ py_str wind ++ "km/h.").

Definition generate_weather_response (b : binding) (query : string)
    (weather_data : json) : M World string :=
  loc <- lift (Json.getitem weather_data "location") ;;
  location <- lift (Json.getitem loc "name") ;;
  loc <- lift (Json.getitem weather_data "location") ;;
  country <- lift (Json.getitem loc "country") ;;
  cur <- lift (Json.getitem weather_data "current") ;;
  temperature <- lift (Json.getitem cur "temp_c") ;;
  humidity <- lift (Json.getitem cur "humidity") ;;
  cloud <- lift (Json.getitem cur "cloud") ;;
  wind <- lift (Json.getitem cur "wind_kph") ;;
  cond <- lift (Json.getitem cur "condition") ;;
  condition <- lift (Json.getitem cond "text") ;;
  let weather_context :=
    mk_ctx location country temperature humidity cloud wind condition in
  try_except
    (reply <- call_llm (request b Compose query (Some weather_context)) ;;
     ret (PyStr.strip reply))
    (fun e =>
       print ("Error connecting to " ++ api_name b ++ " API: " ++ exn_msg e) ;;
       fallback_response location temperature humidity cloud wind).

Definition handle_user_query (b : binding) (query : string) : M World string :=
  is_weather <- is_weather_query b query ;;
  if negb is_weather then ret redirect_message
  else
    location <- extract_location_from_query b query ;;
    match location with
    | None => ret clarification_message
    | Some location =>
        if negb (PyStr.truthy location) then ret clarification_message
        else
          weather_data <- get_weather_by_location b location ;;
          if negb (Json.truthy weather_data) then ret (not_found_message location)
          else generate_weather_response b query weather_data
    end.

Definition exit_keywords : list string := ["exit"; "quit"; "bye"; "goodbye"].

(** One turn of the [while True] loop of [main], given what [input()]
    delivers ([None]: the input is at its end and [input()] raises
    [EOFError]). *)
Definition loop_body (b : binding) (inp : option stdin_event) (st : state World)
    : control * state World :=
  let st := emit (EvInput "Ask?: ") st in
  match inp with
  | Some Interrupt =>
      (Break, emit (EvPrint (newline ++ "Goodbye! Have a great day!")) st)
  | None =>
      (Continue,
       emit (EvPrint "Please try again with a different question.")
         (emit (EvPrint "An error occurred: EOF when reading a line") st))
  | Some (Line user_input) =>
      if PyStr.mem (PyStr.lower user_input) exit_keywords
      then (Break, emit (EvPrint "Goodbye! Have a great day!") st)
      else if negb (PyStr.truthy (PyStr.strip user_input))
      then (Continue, emit (EvPrint "Please ask a question about the weather.") st)
      else
        match handle_user_query b user_input st with
        | (Ok response, st') =>
            (Continue, emit (EvPrint EmptyString) (emit (EvPrint response) st'))
        | (Raise e, st') =>
            (Continue,
             emit (EvPrint "Please try again with a different question.")
               (emit (EvPrint ("An error occurred: " ++ exn_msg e)) st'))
        end
  end.

(** The loop of [main], run for at most [turns] turns over the lines the
    terminal delivers. *)
Fixpoint main_loop (b : binding) (turns : nat) (stdin : list stdin_event)
    (st : state World) : loop_status * state World :=
  match turns with
  | O => (Running, st)
  | S n =>
      match loop_body b (hd_error stdin) st with
      | (Break, st') => (Exited, st')
      | (Continue, st') => main_loop b n (tl stdin) st'
      end
  end.

Definition banner (b : binding) : string :=
  match b with
  | Claude | Gemini => "Weather Chatbot"
  | OpenAI => "Weather Chatbot (OpenAI Version)"
  | Groq => "Weather Chatbot (Groq Version)"
  end.

Definition underline (b : binding) : string :=
  match b with
  | Claude | Gemini => "=============="
  | OpenAI => "================================"
  | Groq => "=============================="
  end.

Definition main (b : binding) (turns : nat) (stdin : list stdin_event)
    (st : state World) : loop_status * state World :=
  let st := emit (EvPrint (banner b)) st in
  let st := emit (EvPrint (underline b)) st in
  let st := emit (EvPrint "Ask me about the weather in any location!") st in
  let st := emit (EvPrint "Type 'exit' or 'quit' to end the conversation.") st in
  let st := emit (EvPrint EmptyString) st in
  main_loop b turns stdin st.

End Pipeline.

End WeatherBot.

(** ** The coordinate script: [weather.py] *)

Module Weather.

(** How [main] ends: it falls off its end, or calls [sys.exit(code)]. *)
Inductive outcome := Finished | SysExit (code : Z).

(** What one prompt loop of [main] yields. *)
Inductive asked :=
| Got (coordinate : float)
| Interrupted               (* KeyboardInterrupt at input() *)
| Failed (e : exn).         (* an exception the loop does not handle *)

Section Script.
Variable World : Type.

(** [requests.get]: a response, or the exception of a transport failure. *)
Variable weather_backend : http_request -> World -> result http_response * World.

(** [float(value)] on a string: the number, or [None] when [float] raises
    [ValueError]. *)
Variable py_float : string -> option float.

(** [os.getenv(WEATHER_API_KEY)]. *)
Variable API_KEY : option string.

(** [repr] of a float, and of a list or a dict. *)
Variable float_repr : float -> string.
Variable container_repr : json -> string.

Local Open Scope py_scope.

(** The body of the [try] of [validate_coordinates]. *)
Definition validate_body (value coord_type : string) : result float :=
  match py_float value with
  | None =>
      Raise (mk_exn ValueError ("could not convert string to float: '" ++ value ++ "'"))
  | Some coordinate =>
      if String.eqb coord_type "latitude"
         && (PrimFloat.ltb coordinate (-90)%float || PrimFloat.ltb 90%float coordinate)
      then Raise (mk_exn ValueError "Latitude must be between -90 and 90 degrees")
      else if String.eqb coord_type "longitude"
              && (PrimFloat.ltb coordinate (-180)%float || PrimFloat.ltb 180%float coordinate)
      then Raise (mk_exn ValueError "Longitude must be between -180 and 180 degrees")
      else Ok coordinate
  end.

(** [validate_coordinates]: the body under [except ValueError], whose
    handler raises the format message. *)
Definition validate_coordinates (value coord_type : string) : result float :=
  match validate_body value coord_type with
  | Ok coordinate => Ok coordinate
  | Raise e =>
      match exn_cls e with
      | ValueError =>
          Raise (mk_exn ValueError
                   ("Invalid " ++ coord_type ++ " format. Please enter a number."))
      | _ => Raise e
      end
  end.

Definition requests_get (rq : http_request) : M World http_response :=
  fun st =>
    let (r, w) := weather_backend rq (world st) in
    (r, mk_state w (trace st ++ [EvHTTP rq])%list).

Definition api_key_present : bool :=
  match API_KEY with
  | Some k => PyStr.truthy k
  | None => false
  end.

Definition get_weather (latitude longitude : float) : M World json :=
  if negb api_key_present then
    print "Error: No API key found. Please create a .env file with your WEATHER_API_KEY." ;;
    ret JNull
  else
    try_except
      (response <- requests_get (mk_http (ByCoords latitude longitude) 10) ;;
       if Z.eqb (status_code response) 200 then lift (json_body response)
       else
         print ("Error: API request failed with status code "
                ++ PyStr.str_of_int (status_code response)) ;;
         print ("Response: " ++ text response) ;;
         ret JNull)
      (fun e =>
         match exn_cls e with
         | RequestException =>
             print ("Error: Failed to connect to the weather API: " ++ exn_msg e) ;;
             ret JNull
         | _ =>
             print ("Error: An unexpected error occurred: " ++ exn_msg e) ;;
             ret JNull
         end).

Definition py_str (v : json) : string :=
  match v with
  | JNull => "None"
  | JBool true => "True"
  | JBool false => "False"
  | JInt z => PyStr.str_of_int z
  | JFloat f => float_repr f
  | JStr s => s
  | JList _ | JObj _ => container_repr v
  end.

Definition is_str (k : string) (v : json) : bool :=
  match v with
  | JStr s => String.eqb s k
  | _ => false
  end.

(** [k in v]: a key of a dict, an element of a list, a substring of a
    string; other values are not iterable. *)
Definition py_in (k : string) (v : json) : result bool :=
  match v with
  | JObj kvs => Ok (match Json.lookup k kvs with Some _ => true | None => false end)
  | JList l => Ok (existsb (is_str k) l)
  | JStr s => Ok (PyStr.contains k s)
  | _ => Raise (mk_exn TypeError "argument is not iterable")
  end.

(** The two bytes of the degree sign in UTF-8, then [C]. *)
Definition degrees_C : string :=
  String (ascii_of_nat 194) (String (ascii_of_nat 176) "C").

(** [print(label + str(d[key]) + suffix)]. *)
Definition print_field (label : string) (d : json) (key suffix : string) : M World unit :=
  v <- lift (Json.getitem d key) ;;
  print (label ++ py_str v ++ suffix).

Definition display_weather (weather_data : json) : M World unit :=
  has_current <-
    (if negb (Json.truthy weather_data) then ret false
     else lift (py_in "current" weather_data)) ;;
  if negb has_current then print "No weather data available to display."
  else
    current <- lift (Json.getitem weather_data "current") ;;
    location <- lift (Json.getitem weather_data "location") ;;
    print (String (ascii_of_nat 10) "The current weather for this location is:") ;;
    print_field "- temperature(C): " current "temp_c" EmptyString ;;
    print_field "- humidity: " current "humidity" "%" ;;
    print_field "- cloud: " current "cloud" "%" ;;
    print_field "- wind: " current "wind_kph" "km/h" ;;
    condition <- lift (Json.getitem current "condition") ;;
    print_field "- condition: " condition "text" EmptyString ;;
    print_field "- feels like: " current "feelslike_c" degrees_C ;;
    print_field "- UV index: " current "uv" EmptyString ;;
    name <- lift (Json.getitem location "name") ;;
    region <- lift (Json.getitem location "region") ;;
    country <- lift (Json.getitem location "country") ;;
    print (String (ascii_of_nat 10) "Location: " ++ py_str name ++ ", " ++ py_str region
           ++ ", " ++ py_str country) ;;
    print_field "Local time: " location "localtime" EmptyString.

(** One of the two [while True] loops of [main]: prompt, validate, and
    on [ValueError] print it and prompt again. *)
Fixpoint ask_coordinate (prompt coord_type : string) (stdin : list stdin_event)
    (st : state World) : asked * list stdin_event * state World :=
  let st := emit (EvInput prompt) st in
  match stdin with
  | [] => (Failed (mk_exn EOFError "EOF when reading a line"), [], st)
  | Interrupt :: rest => (Interrupted, rest, st)
  | Line value :: rest =>
      match validate_coordinates value coord_type with
      | Ok coordinate => (Got coordinate, rest, st)
      | Raise e =>
          match exn_cls e with
          | ValueError =>
              ask_coordinate prompt coord_type rest
                (emit (EvPrint ("Error: " ++ exn_msg e)) st)
          | _ => (Failed e, rest, st)
          end
      end
  end.

(** The two handlers of the outer [try] of [main]. *)
Definition terminated_by_user (st : state World) : outcome * state World :=
  (SysExit 0, emit (EvPrint (String (ascii_of_nat 10) "Program terminated by user.")) st).

Definition unexpected_error (e : exn) (st : state World) : outcome * state World :=
  (SysExit 1, emit (EvPrint ("An unexpected error occurred: " ++ exn_msg e)) st).

Definition main (stdin : list stdin_event) (st : state World) : outcome * state World :=
  let st := emit (EvPrint "Weather Information Program") st in
  let st := emit (EvPrint "==========================") st in
  match ask_coordinate "Latitude?: " "latitude" stdin st with
  | (Interrupted, _, st) => terminated_by_user st
  | (Failed e, _, st) => unexpected_error e st
  | (Got latitude, stdin, st) =>
      match ask_coordinate "Longitude?: " "longitude" stdin st with
      | (Interrupted, _, st) => terminated_by_user st
      | (Failed e, _, st) => unexpected_error e st
      | (Got longitude, _, st) =>
          match get_weather latitude longitude st with
          | (Raise e, st) => unexpected_error e st
          | (Ok weather_data, st) =>
              if Json.truthy weather_data then
                match display_weather weather_data st with
                | (Ok _, st) => (Finished, st)
                | (Raise e, st) => unexpected_error e st
                end
              else
                (Finished,
                 emit (EvPrint "Failed to retrieve weather information. Please try again later.") st)
          end
      end
  end.

End Script.

End Weather.


(** ** Vocabulary of the statements *)

Module Spec.

(** The record [wd] has the seven fields [generate_weather_response] reads,
    with the values of [ctx]. *)
Definition has_fields (wd : json) (ctx : weather_context) : Prop :=
  exists loc cur cond,
    Json.getitem wd "location" = Ok loc
    /\ Json.getitem loc "name" = Ok (ctx_location ctx)
    /\ Json.getitem loc "country" = Ok (ctx_country ctx)
    /\ Json.getitem wd "current" = Ok cur
    /\ Json.getitem cur "temp_c" = Ok (ctx_temperature ctx)
    /\ Json.getitem cur "humidity" = Ok (ctx_humidity ctx)
    /\ Json.getitem cur "cloud" = Ok (ctx_cloud ctx)
    /\ Json.getitem cur "wind_kph" = Ok (ctx_wind ctx)
    /\ Json.getitem cur "condition" = Ok cond
    /\ Json.getitem cond "text" = Ok (ctx_condition ctx).

(** The cloud cover is a number strictly greater than 50. *)
Definition above_50 (cloud : json) : Prop :=
  match cloud with
  | JInt z => (50 < z)%Z
  | JFloat f => PrimFloat.ltb 50%float f = true
  | _ => False
  end.

(** The cloud cover is a number less than or equal to 50. *)
Definition at_most_50 (cloud : json) : Prop :=
  match cloud with
  | JInt z => (z <= 50)%Z
  | JFloat f => PrimFloat.leb f 50%float = true
  | _ => False
  end.

(** A lookup that did not succeed: the transport failed, or the status is
    not 200. *)
Definition lookup_failed (out : result http_response) : Prop :=
  match out with
  | Raise _ => True
  | Ok resp => status_code resp <> 200%Z
  end.

(** A reply that is neither YES nor NO once stripped and upper-cased. *)
Definition unparseable (reply : string) : Prop :=
  ~ In (PyStr.upper (PyStr.strip reply)) ["YES"; "NO"].

(** A latitude (a longitude) outside its range. *)
Definition latitude_out_of_range (x : float) : Prop :=
  PrimFloat.ltb x (-90)%float = true \/ PrimFloat.ltb 90%float x = true.

Definition longitude_out_of_range (x : float) : Prop :=
  PrimFloat.ltb x (-180)%float = true \/ PrimFloat.ltb 180%float x = true.

(** Every request in the trace that carries coordinates carries a latitude
    and a longitude within their ranges. *)
Definition requests_in_range (tr : list event) : Prop :=
  forall lat lon t,
    In (EvHTTP (mk_http (ByCoords lat lon) t)) tr ->
    ~ latitude_out_of_range lat /\ ~ longitude_out_of_range lon.

(** An event that is not a request to the weather provider. *)
Definition quiet (ev : event) : Prop :=
  match ev with
  | EvHTTP _ => False
  | _ => True
  end.

(** A computation that keeps the requests of the trace in range. *)
Definition keeps (World : Type) {A} (c : M World A) : Prop :=
  forall st, requests_in_range (trace st) -> requests_in_range (trace (snd (c st))).

End Spec.

(** ** Concrete backends and inputs for the examples *)

Module Scenario.

(** A language-model client that answers each stage with a fixed outcome. *)
Definition scripted_llm (classify extract compose : result string)
    : llm_request -> unit -> result string * unit :=
  fun rq w =>
    (match rq_stage rq with
     | Classify => classify
     | Extract => extract
     | Compose => compose
     end, w).

(** A weather provider with a fixed outcome. *)
Definition scripted_http (out : result http_response)
    : http_request -> unit -> result http_response * unit :=
  fun _ w => (out, w).

Definition timeout : exn := mk_exn RequestException "Read timed out.".

Definition backend_down : exn := mk_exn OtherException "Connection error.".

Definition plain_repr {A} : A -> string := fun _ => "?".

Definition start : state unit := mk_state tt [].

(** The record of Scenario E, in Paris. *)
Definition paris : json :=
  JObj [("location", JObj [("name", JStr "Paris"); ("country", JStr "France")]);
        ("current", JObj [("temp_c", JInt 30); ("humidity", JInt 40);
                          ("cloud", JInt 80); ("wind_kph", JInt 15);
                          ("condition", JObj [("text", JStr "Sunny")])])].

Definition paris_ctx : weather_context :=
  mk_ctx (JStr "Paris") (JStr "France") (JInt 30) (JInt 40) (JInt 80) (JInt 15) (JStr "Sunny").

(** The same record with another cloud cover. *)
Definition paris_with_cloud (cloud : json) : json :=
  JObj [("location", JObj [("name", JStr "Paris"); ("country", JStr "France")]);
        ("current", JObj [("temp_c", JInt 30); ("humidity", JInt 40);
                          ("cloud", cloud); ("wind_kph", JInt 15);
                          ("condition", JObj [("text", JStr "Sunny")])])].

(** [float] on the few decimal strings the examples type in. *)
Definition table_float (s : string) : option float :=
  if String.eqb s "45" then Some 45%float
  else if String.eqb s "91" then Some 91%float
  else if String.eqb s "-90.5" then Some (-90.5)%float
  else if String.eqb s "10" then Some 10%float
  else if String.eqb s "200" then Some 200%float
  else if String.eqb s "nan" then Some PrimFloat.nan
  else None.

(** A backend that says NO, and would name a location and find it. *)
Definition says_no :=
  scripted_llm (Ok "NO") (Ok "Paris") (Ok "It is sunny in Paris.").

Definition finds_paris := scripted_http (Ok (mk_resp 200%Z EmptyString (Ok paris))).

(** A backend whose composer is down. *)
Definition composer_down := scripted_llm (Ok "YES") (Ok "Zzqxplorp") (Raise backend_down).

Definition server_error :=
  scripted_http (Ok (mk_resp 500%Z "Internal Server Error" (Raise (mk_exn ValueError "no JSON")))).

(** The state in which the lookup of Scenario D starts: after the
    classification and the extraction. *)
Definition after_extraction (b : WeatherBot.binding) (q : string) : state unit :=
  mk_state tt [EvLLM (WeatherBot.request b Classify q None); EvLLM (WeatherBot.request b Extract q None)].


(** A record with every field [display_weather] prints. *)
Definition sao_paulo : json :=
  JObj [("location", JObj [("name", JStr "Sao Paulo"); ("region", JStr "Sao Paulo");
                           ("country", JStr "Brazil"); ("lat", JInt (-23));
                           ("lon", JInt (-46)); ("localtime", JStr "2025-02-26 11:38")]);
        ("current", JObj [("temp_c", JInt 30); ("feelslike_c", JInt 32);
                          ("humidity", JInt 40); ("cloud", JInt 80);
                          ("wind_kph", JInt 15); ("uv", JInt 7);
                          ("condition", JObj [("text", JStr "Sunny")])])].

Definition finds_sao_paulo := scripted_http (Ok (mk_resp 200%Z EmptyString (Ok sao_paulo))).

End Scenario.

(** ** Start-up of the chatbots: the checks at the top of each script *)

Module BotScript.
Import WeatherBot.

(** The environment variable of the language-model key. *)
Definition llm_key_variable (b : binding) : string :=
  match b with
  | Claude => "ANTHROPIC_API_KEY"
  | Gemini => "GEMINI_API_KEY"
  | OpenAI => "OPENAI_API_KEY"
  | Groq => "GROQ_API_KEY"
  end.

(** [not KEY] for what [os.getenv] returns: unset, or empty. *)
Definition key_missing (k : option string) : bool :=
  match k with
  | Some s => negb (PyStr.truthy s)
  | None => true
  end.

(** How a run of a chatbot script ends: [sys.exit] at start-up, or the
    state of the loop of [main]. *)
Inductive script_end :=
| StartupExit (code : Z)
| Loop (s : loop_status).

Section Script.
Variable World : Type.
Variable llm_backend : llm_request -> World -> result string * World.
Variable weather_backend : http_request -> World -> result http_response * World.
Variable float_repr : float -> string.
Variable container_repr : json -> string.

(** [os.getenv] of the two keys. *)
Variable WEATHER_API_KEY : option string.
Variable LLM_API_KEY : option string.

(** The two checks that precede the definitions of the script. *)
Definition startup (b : binding) (st : state World) : option Z * state World :=
  if key_missing WEATHER_API_KEY then
    (Some 1%Z,
     emit (EvPrint "Error: WeatherAPI key not found. Please add WEATHER_API_KEY to your .env file.") st)
  else if key_missing LLM_API_KEY then
    (Some 1%Z,
     emit (EvPrint ("Error: " ++ api_name b ++ " API key not found. Please add "
                    ++ llm_key_variable b ++ " to your .env file.")) st)
  else (None, st).

(** The script run as a program: the checks, then [main]. *)
Definition script (b : binding) (turns : nat) (stdin : list stdin_event)
    (st : state World) : script_end * state World :=
  match startup b st with
  | (Some code, st') => (StartupExit code, st')
  | (None, st') =>
      let (s, st'') :=
        main World llm_backend weather_backend float_repr container_repr b turns stdin st' in
      (Loop s, st'')
  end.

End Script.

End BotScript.

(** ** Counting the calls of a trace *)

Module Calls.

(** The four outbound calls of the pipeline. *)
Inductive call := Classification | Extraction | Lookup | Composition.

Definition call_of (ev : event) : option call :=
  match ev with
  | EvLLM r =>
      Some match rq_stage r with
           | Classify => Classification
           | Extract => Extraction
           | Compose => Composition
           end
  | EvHTTP _ => Some Lookup
  | _ => None
  end.

(** The calls of a trace, in order. *)
Fixpoint calls (tr : list event) : list call :=
  match tr with
  | [] => []
  | ev :: r =>
      match call_of ev with
      | Some c => c :: calls r
      | None => calls r
      end
  end.

(** The number of requests to the weather provider in a trace. *)
Fixpoint http_count (tr : list event) : nat :=
  match tr with
  | [] => 0
  | EvHTTP _ :: r => S (http_count r)
  | _ :: r => http_count r
  end.

(** A computation whose only effects are prints and prompts. *)
Definition quiet_only {World A} (c : M World A) : Prop :=
  forall st, exists evs,
    trace (snd (c st)) = (trace st ++ evs)%list /\ Forall Spec.quiet evs.

End Calls.

(** ** Equality and addition of decoded JSON values *)

Module JsonOps.

(** [f == z] for a float and an int: Python compares the exact values. *)
Definition float_eq_int (f : float) (z : Z) : bool :=
  match Prim2SF f with
  | S754_zero _ => Z.eqb z 0
  | S754_finite s m e =>
      let mz := if s then Z.neg m else Z.pos m in
      if Z.leb 0 e then Z.eqb z (mz * 2 ^ e) else Z.eqb (z * 2 ^ (- e)) mz
  | _ => false
  end.

Definition int_of_bool (b : bool) : Z := if b then 1%Z else 0%Z.

(** [a == b]: numbers by value ([True] is 1), strings and lists
    elementwise, dicts key by key, values of different kinds differ. *)
Fixpoint py_eq (a b : json) : bool :=
  match a, b with
  | JNull, JNull => true
  | JBool x, JBool y => Bool.eqb x y
  | JBool x, JInt z | JInt z, JBool x => Z.eqb (int_of_bool x) z
  | JBool x, JFloat f | JFloat f, JBool x => float_eq_int f (int_of_bool x)
  | JInt x, JInt y => Z.eqb x y
  | JInt z, JFloat f | JFloat f, JInt z => float_eq_int f z
  | JFloat f, JFloat g => PrimFloat.eqb f g
  | JStr s, JStr t => String.eqb s t
  | JList l1, JList l2 =>
      (fix all2 (l1 l2 : list json) : bool :=
         match l1, l2 with
         | [], [] => true
         | x :: r1, y :: r2 => py_eq x y && all2 r1 r2
         | _, _ => false
         end) l1 l2
  | JObj kvs1, JObj kvs2 =>
      Nat.eqb (List.length kvs1) (List.length kvs2)
      && (fix sub (kvs : list (string * json)) : bool :=
            match kvs with
            | [] => true
            | (k, v) :: r =>
                match Json.lookup k kvs2 with
                | Some v' => py_eq v v' && sub r
                | None => false
                end
            end) kvs1
  | _, _ => false
  end.

(** The characters of a string, each as a one-character string. *)
Fixpoint chars (s : string) : list json :=
  match s with
  | EmptyString => []
  | String c r => JStr (String c EmptyString) :: chars r
  end.

(** [v += s] for a string [s]: a string grows, a list is extended by the
    characters, anything else is a [TypeError]. *)
Definition iadd_str (v : json) (s : string) : result json :=
  match v with
  | JStr t => Ok (JStr (t ++ s))
  | JList l => Ok (JList (l ++ chars s)%list)
  | _ => Raise (mk_exn TypeError "unsupported operand type(s) for +=")
  end.

(** [v.get(k)]: a dict answers, with [None] for a missing key; no other
    decoded value has the method ([AttributeError]). *)
Definition get (v : json) (k : string) : result json :=
  match v with
  | JObj kvs =>
      match Json.lookup k kvs with
      | Some x => Ok x
      | None => Ok JNull
      end
  | _ => Raise (mk_exn OtherException "object has no attribute 'get'")
  end.

End JsonOps.

(** ** The location script: [ex02/weather_geoloc.py] *)

Module WeatherGeoloc.

Section Script.
Variable World : Type.
Variable weather_backend : http_request -> World -> result http_response * World.
Variable API_KEY : option string.
Variable float_repr : float -> string.
Variable container_repr : json -> string.

Local Open Scope py_scope.

#[local] Abbreviation py_str := (Weather.py_str float_repr container_repr).
#[local] Abbreviation print_field := (Weather.print_field World float_repr container_repr).

Definition get_weather_by_location (location_name : string) : M World json :=
  if negb (Weather.api_key_present API_KEY) then
    print "Error: No API key found. Please create a .env file with your WEATHER_API_KEY." ;;
    ret JNull
  else
    try_except
      (response <- Weather.requests_get World weather_backend
                     (mk_http (ByName location_name) 10) ;;
       if Z.eqb (status_code response) 200 then lift (json_body response)
       else if Z.eqb (status_code response) 400 then
         print ("Error: Could not find location '" ++ location_name ++ "'") ;;
         ret JNull
       else
         print ("Error: API request failed with status code "
                ++ PyStr.str_of_int (status_code response)) ;;
         print ("Response: " ++ text response) ;;
         ret JNull)
      (fun e =>
         match exn_cls e with
         | RequestException =>
             print ("Error: Failed to connect to the weather API: " ++ exn_msg e) ;;
             ret JNull
         | _ =>
             print ("Error: An unexpected error occurred: " ++ exn_msg e) ;;
             ret JNull
         end).

(** The name shown in the header: the name, followed by the region when
    there is one and it is not the name. *)
Definition header_name (location : json) : M World json :=
  location_name <- lift (Json.getitem location "name") ;;
  region <- lift (JsonOps.get location "region") ;;
  differs <-
    (if negb (Json.truthy region) then ret false
     else
       region <- lift (Json.getitem location "region") ;;
       name <- lift (Json.getitem location "name") ;;
       ret (negb (JsonOps.py_eq region name))) ;;
  if differs : bool then
    region <- lift (Json.getitem location "region") ;;
    lift (JsonOps.iadd_str location_name (", " ++ py_str region))
  else ret location_name.

Definition display_weather (weather_data : json) : M World unit :=
  has_current <-
    (if negb (Json.truthy weather_data) then ret false
     else lift (Weather.py_in "current" weather_data)) ;;
  if negb has_current then print "No weather data available to display."
  else
    current <- lift (Json.getitem weather_data "current") ;;
    location <- lift (Json.getitem weather_data "location") ;;
    location_name <- header_name location ;;
    print (String (ascii_of_nat 10) "The current weather in " ++ py_str location_name ++ " is:") ;;
    print_field "- temperature(C): " current "temp_c" EmptyString ;;
    print_field "- humidity: " current "humidity" "%" ;;
    print_field "- cloud: " current "cloud" "%" ;;
    print_field "- wind: " current "wind_kph" "km/h" ;;
    condition <- lift (Json.getitem current "condition") ;;
    print_field "- condition: " condition "text" EmptyString ;;
    print_field "- feels like: " current "feelslike_c" Weather.degrees_C ;;
    print_field "- UV index: " current "uv" EmptyString ;;
    lat <- lift (Json.getitem location "lat") ;;
    lon <- lift (Json.getitem location "lon") ;;
    print (String (ascii_of_nat 10) "Coordinates: " ++ py_str lat ++ ", " ++ py_str lon) ;;
    print_field "Country: " location "country" EmptyString ;;
    print_field "Local time: " location "localtime" EmptyString.

(** [main]: one prompt, one lookup.  [sys.exit] inside the [try] is not an
    [Exception] and leaves through neither handler. *)
Definition main (stdin : list stdin_event) (st : state World)
    : Weather.outcome * state World :=
  let st := emit (EvPrint "Weather Information Program with Geolocation") st in
  let st := emit (EvPrint "===========================================") st in
  let st := emit (EvInput "Location?: ") st in
  match stdin with
  | [] =>
      Weather.unexpected_error World (mk_exn EOFError "EOF when reading a line") st
  | Interrupt :: _ => Weather.terminated_by_user World st
  | Line location :: _ =>
      if negb (PyStr.truthy (PyStr.strip location)) then
        (Weather.SysExit 1, emit (EvPrint "Error: Location cannot be empty.") st)
      else
        match get_weather_by_location location st with
        | (Raise e, st) => Weather.unexpected_error World e st
        | (Ok weather_data, st) =>
            if Json.truthy weather_data then
              match display_weather weather_data st with
              | (Ok _, st) => (Weather.Finished, st)
              | (Raise e, st) => Weather.unexpected_error World e st
              end
            else
              (Weather.Finished,
               emit (EvPrint "Failed to retrieve weather information. Please try a different location or try again later.") st)
        end
  end.

End Script.

End WeatherGeoloc.

(** ** The connection test: [ex00/test_weather_api.py] *)

Module TestApi.

(** What the script does, in order. *)
Inductive action :=
| Printed (s : string)                 (* print(s) *)
| Asked (prompt : string)              (* input(prompt) *)
| Wrote (path content : string)        (* open(path, w).write(content) *)
| Requested (key q : string).          (* requests.get(url, {key, q, aqi: no}), no timeout *)

(** How a call ends: a value, an exception, or the interrupt of the user. *)
Inductive ending (A : Type) :=
| Returned (a : A)
| Raised (e : exn)
| Interrupted.
Arguments Returned {A} a.
Arguments Raised {A} e.
Arguments Interrupted {A}.

(** An action that is a print. *)
Definition printed (a : action) : Prop :=
  match a with
  | Printed _ => True
  | _ => False
  end.

Section Script.
Variable World : Type.

(** [requests.get] with the key and the place. *)
Variable provider : string -> string -> World -> result http_response * World.

(** Writing the file: it succeeds or raises. *)
Variable write_file : string -> string -> World -> result unit * World.

(** [os.getenv(WEATHER_API_KEY)]. *)
Variable env_key : option string.

Variable float_repr : float -> string.
Variable container_repr : json -> string.

Record tstate := mk_tstate {
  tworld : World;
  tstdin : list stdin_event;
  tlog : list action }.

Definition T (A : Type) : Type := tstate -> result A * tstate.

Definition tret {A} (a : A) : T A := fun st => (Ok a, st).

Definition tbind {A B} (c : T A) (k : A -> T B) : T B :=
  fun st =>
    match c st with
    | (Ok a, st') => k a st'
    | (Raise e, st') => (Raise e, st')
    end.

Definition tlift {A} (r : result A) : T A := fun st => (r, st).

Definition record (a : action) (st : tstate) : tstate :=
  mk_tstate (tworld st) (tstdin st) (tlog st ++ [a])%list.

Definition tprint (s : string) : T unit := fun st => (Ok tt, record (Printed s) st).

(** A computation that only prints: it adds prints to the log and leaves
    the input alone. *)
Definition prints_only {A} (c : T A) : Prop :=
  forall st, exists more,
    tlog (snd (c st)) = (tlog st ++ more)%list
    /\ Forall printed more
    /\ tstdin (snd (c st)) = tstdin st.

Definition request (key q : string) : T http_response :=
  fun st =>
    let (r, w) := provider key q (tworld st) in
    (r, mk_tstate w (tstdin st) (tlog st ++ [Requested key q])%list).

Local Notation "x <- c ;; k" := (tbind c (fun x => k))
  (at level 61, c at next level, right associativity).
Local Notation "c ;; k" := (tbind c (fun _ => k))
  (at level 61, right associativity).

#[local] Abbreviation py_str := (Weather.py_str float_repr container_repr).

(** The body of the [try] of [test_api_connection]. *)
Definition probe (api_key : string) : T bool :=
  tprint "Sending request to WeatherAPI.com..." ;;
  response <- request api_key "Sao Paulo" ;;
  if Z.eqb (status_code response) 200 then
    data <- tlift (json_body response) ;;
    tprint (String (ascii_of_nat 10) "API connection successful! Response received.") ;;
    has_current <- tlift (Weather.py_in "current" data) ;;
    if has_current : bool then
      current <- tlift (Json.getitem data "current") ;;
      location <- tlift (Json.getitem data "location") ;;
      name <- tlift (Json.getitem location "name") ;;
      country <- tlift (Json.getitem location "country") ;;
      tprint (String (ascii_of_nat 10) "Current weather data for " ++ py_str name ++ ", "
              ++ py_str country ++ ":") ;;
      temp_c <- tlift (Json.getitem current "temp_c") ;;
      tprint ("Temperature: " ++ py_str temp_c ++ Weather.degrees_C) ;;
      humidity <- tlift (Json.getitem current "humidity") ;;
      tprint ("Humidity: " ++ py_str humidity ++ "%") ;;
      cloud <- tlift (Json.getitem current "cloud") ;;
      tprint ("Cloud Cover: " ++ py_str cloud ++ "%") ;;
      wind <- tlift (Json.getitem current "wind_kph") ;;
      tprint ("Wind Speed: " ++ py_str wind ++ " km/h") ;;
      condition <- tlift (Json.getitem current "condition") ;;
      text <- tlift (Json.getitem condition "text") ;;
      tprint ("Condition: " ++ py_str text) ;;
      tret true
    else
      tprint "Response received, but no current weather data found." ;;
      tprint ("Full response: " ++ py_str data) ;;
      tret false
  else
    tprint ("API request failed with status code: "
            ++ PyStr.str_of_int (status_code response)) ;;
    tprint ("Response: " ++ text response) ;;
    (if Z.eqb (status_code response) 401 then
       tprint (String (ascii_of_nat 10)
                 "Error 401: Unauthorized. Your API key might be invalid or expired.") ;;
       tprint "Please get a new API key from weatherapi.com"
     else if Z.eqb (status_code response) 403 then
       tprint (String (ascii_of_nat 10)
                 "Error 403: Forbidden. You might have exceeded your API call limits.")
     else tret tt) ;;
    tret false.

(** The [try] with its handler. *)
Definition guarded_probe (api_key : string) (st : tstate) : bool * tstate :=
  match probe api_key st with
  | (Ok b, st') => (b, st')
  | (Raise e, st') => (false, record (Printed ("Error occurred: " ++ exn_msg e)) st')
  end.

(** The key is not in the environment: ask for it and save it. *)
Definition ask_and_save_key (st : tstate) : ending string * tstate :=
  let st := record (Printed "No API key found in environment variables.") st in
  let st := record (Asked "Please enter your WeatherAPI.com API key: ") st in
  match tstdin st with
  | [] => (Raised (mk_exn EOFError "EOF when reading a line"), st)
  | Interrupt :: rest => (Interrupted, mk_tstate (tworld st) rest (tlog st))
  | Line api_key :: rest =>
      let content := "WEATHER_API_KEY=" ++ api_key in
      match write_file ".env" content (tworld st) with
      | (Raise e, w) => (Raised e, mk_tstate w rest (tlog st))
      | (Ok _, w) =>
          (Returned api_key,
           record (Printed "API key saved to .env file for future use.")
             (mk_tstate w rest (tlog st ++ [Wrote ".env" content])%list))
      end
  end.

Definition key_in_env : bool :=
  match env_key with
  | Some k => PyStr.truthy k
  | None => false
  end.

Definition test_api_connection (st : tstate) : ending bool * tstate :=
  match (if key_in_env
         then (Returned (match env_key with Some k => k | None => EmptyString end), st)
         else ask_and_save_key st) with
  | (Returned api_key, st) => let (b, st') := guarded_probe api_key st in (Returned b, st')
  | (Raised e, st) => (Raised e, st)
  | (Interrupted, st) => (Interrupted, st)
  end.

(** The block under [if __name__ == __main__], given whether the
    interpreter runs in a virtual environment. *)
Definition main_block (in_venv : bool) (st : tstate) : ending unit * tstate :=
  let st := record (Printed ("Testing WeatherAPI.com connection..." ++ String (ascii_of_nat 10) EmptyString)) st in
  let st :=
    record (Printed (if in_venv then "Virtual environment detected!"
                     else "Warning: Not running in a virtual environment. It's recommended to run this script in a virtual environment.")) st in
  match test_api_connection st with
  | (Returned true, st) =>
      let st := record (Printed (String (ascii_of_nat 10) "Environment setup is correct and API connection is working!")) st in
      (Returned tt, record (Printed "You're all set to proceed with the weather application.") st)
  | (Returned false, st) =>
      (Returned tt,
       record (Printed (String (ascii_of_nat 10) "Failed to connect to the API. Please check your setup, API key, and internet connection.")) st)
  | (Raised e, st) => (Raised e, st)
  | (Interrupted, st) => (Interrupted, st)
  end.

End Script.

Arguments mk_tstate {World} tworld tstdin tlog.
Arguments tworld {World} t.
Arguments tstdin {World} t.
Arguments tlog {World} t.
Arguments record {World} a st.
Arguments tret {World A} a.
Arguments tbind {World A B} c k.
Arguments tlift {World A} r.
Arguments tprint {World} s.
Arguments prints_only {World A} c.

End TestApi.

(** ** More concrete backends and inputs *)

Module Cases.
Import Scenario.

(** A classifier that says YES with an extractor that finds no place, one
    that is down, and one that answers with blanks. *)
Definition no_place := scripted_llm (Ok "YES") (Ok " UNKNOWN ") (Ok "Fine.").

Definition extractor_down := scripted_llm (Ok "YES") (Raise backend_down) (Ok "Fine.").

Definition blank_extractor := scripted_llm (Ok "YES") (Ok "  ") (Ok "Fine.").

Definition lowercase_sentinel := scripted_llm (Ok "YES") (Ok " Unknown") (Ok "Fine.").

(** The three backends of the success path. *)
Definition sunny := scripted_llm (Ok "YES") (Ok "Paris") (Ok " It is sunny in Paris. ").

(** What the provider sends with a status 200 that is not a record. *)
Definition error_body : json :=
  JObj [("error", JObj [("code", JInt 1006);
                        ("message", JStr "No matching location found.")])].

Definition finds_error_body := scripted_http (Ok (mk_resp 200%Z EmptyString (Ok error_body))).

Definition not_found := scripted_http (Ok (mk_resp 400%Z "no match" (Raise (mk_exn ValueError "no JSON")))).

(** The state of a chatbot after the classification, and after the
    extraction. *)
Definition classified (b : WeatherBot.binding) (q : string) : state unit :=
  mk_state tt [EvLLM (WeatherBot.request b Classify q None)].

Definition extracted (b : WeatherBot.binding) (q : string) : state unit :=
  mk_state tt [EvLLM (WeatherBot.request b Classify q None);
               EvLLM (WeatherBot.request b Extract q None)].

(** [float] on the strings of the examples: the bounds, a large number,
    not-a-number; anything else is not a number. *)
Definition bounds_float (s : string) : option float :=
  if String.eqb s "90" then Some 90%float
  else if String.eqb s "-90" then Some (-90)%float
  else if String.eqb s "180" then Some 180%float
  else if String.eqb s "-180" then Some (-180)%float
  else if String.eqb s "45" then Some 45%float
  else if String.eqb s "91" then Some 91%float
  else if String.eqb s "1e9" then Some 1000000000%float
  else if String.eqb s "nan" then Some PrimFloat.nan
  else None.

(** The two parts of the record of Sao Paulo. *)
Definition sao_paulo_location : json :=
  JObj [("name", JStr "Sao Paulo"); ("region", JStr "Sao Paulo");
        ("country", JStr "Brazil"); ("lat", JInt (-23));
        ("lon", JInt (-46)); ("localtime", JStr "2025-02-26 11:38")].

Definition sao_paulo_current : json :=
  JObj [("temp_c", JInt 30); ("feelslike_c", JInt 32);
        ("humidity", JInt 40); ("cloud", JInt 80);
        ("wind_kph", JInt 15); ("uv", JInt 7);
        ("condition", JObj [("text", JStr "Sunny")])].

(** A location whose region is not its name. *)
Definition campinas : list (string * json) :=
  [("name", JStr "Campinas"); ("region", JStr "Sao Paulo"); ("country", JStr "Brazil")].

(** The connection test: a provider that answers with the record of Sao
    Paulo, a file system that accepts the write, and a start with the given
    input. *)
Definition answers_sao_paulo : string -> string -> unit -> result http_response * unit :=
  fun _ _ w => (Ok (mk_resp 200%Z EmptyString (Ok sao_paulo)), w).

Definition accepts_write : string -> string -> unit -> result unit * unit :=
  fun _ _ w => (Ok tt, w).

Definition fresh (stdin : list stdin_event) : TestApi.tstate unit :=
  TestApi.mk_tstate tt stdin [].

End Cases.
(** ** Facts about the string builtins *)

Module PyStrFacts.
Import PyStr.

Ltac ascii_cases c :=
  destruct c as [[] [] [] [] [] [] [] []]; vm_compute; try reflexivity; try discriminate; auto.

Lemma space_not_upper (c : ascii) : isspace c = true -> is_upper c = false.
Proof. ascii_cases c. Qed.

Lemma lower_not_space (c : ascii) : is_lower c = true -> isspace c = false.
Proof. ascii_cases c. Qed.

Lemma upper_not_space (c : ascii) : is_upper c = true -> isspace c = false.
Proof. ascii_cases c. Qed.

Lemma lower_char_of_lower (c : ascii) : is_lower c = true -> lower_char c = c.
Proof. ascii_cases c. Qed.

Lemma upper_char_of_upper (c : ascii) : is_upper c = true -> upper_char c = c.
Proof. ascii_cases c. Qed.

Lemma upper_char_not_lower (c : ascii) : is_lower c = true -> is_lower (upper_char c) = false.
Proof. ascii_cases c. Qed.

Lemma lower_char_not_upper (c : ascii) : is_upper c = true -> is_upper (lower_char c) = false.
Proof. ascii_cases c. Qed.

Lemma lower_char_upper_char (c : ascii) : is_lower c = true -> lower_char (upper_char c) = c.
Proof. ascii_cases c. Qed.

Lemma upper_char_lower_char (c : ascii) : is_upper c = true -> upper_char (lower_char c) = c.
Proof. ascii_cases c. Qed.

Lemma lower_upper_disjoint (c : ascii) : is_lower c = true -> is_upper c = false.
Proof. ascii_cases c. Qed.

(** The three ways two characters can be the same letter. *)
Lemma same_letter_cases (a b : ascii) :
  same_letter a b = true ->
  b = a \/ (is_lower a = true /\ b = upper_char a) \/ (is_upper a = true /\ b = lower_char a).
Proof.
  unfold same_letter. intros H.
  apply orb_true_iff in H. destruct H as [H | H].
  - apply orb_true_iff in H. destruct H as [H | H].
    + left. apply Ascii.eqb_eq in H. congruence.
    + apply andb_true_iff in H. destruct H as [Hl He].
      right; left. apply Ascii.eqb_eq in He. auto.
  - apply andb_true_iff in H. destruct H as [Hu He].
    right; right. apply Ascii.eqb_eq in He. auto.
Qed.

(** A character that is the same letter as a lower-case one lowers to it. *)
Lemma same_letter_lower (a b : ascii) :
  same_letter a b = true -> is_lower b = true -> lower_char a = b.
Proof.
  intros H Hb. destruct (same_letter_cases a b H) as [-> | [[Hl ->] | [Hu ->]]].
  - apply lower_char_of_lower; assumption.
  - rewrite upper_char_not_lower in Hb by assumption. discriminate.
  - reflexivity.
Qed.

Lemma same_letter_upper (a b : ascii) :
  same_letter a b = true -> is_upper b = true -> upper_char a = b.
Proof.
  intros H Hb. destruct (same_letter_cases a b H) as [-> | [[Hl ->] | [Hu ->]]].
  - apply upper_char_of_upper; assumption.
  - reflexivity.
  - rewrite lower_char_not_upper in Hb by assumption. discriminate.
Qed.

(** A character that is the same letter as a letter is not whitespace. *)
Lemma same_letter_not_space (a b : ascii) :
  same_letter a b = true -> is_lower b || is_upper b = true -> isspace a = false.
Proof.
  intros H Hb. destruct (same_letter_cases a b H) as [-> | [[Hl ->] | [Hu ->]]].
  - apply orb_true_iff in Hb. destruct Hb; [apply lower_not_space | apply upper_not_space]; assumption.
  - apply lower_not_space; assumption.
  - apply upper_not_space; assumption.
Qed.

Lemma caseless_eq_lower (t w : string) :
  caseless_eq t w = true -> all_chars is_lower w = true -> lower t = w.
Proof.
  revert w. induction t as [| a t IH]; intros [| b w] H Hw; simpl in *; try discriminate.
  - reflexivity.
  - apply andb_true_iff in H. destruct H as [Hab Htw].
    apply andb_true_iff in Hw. destruct Hw as [Hb Hw].
    unfold lower in *. simpl. f_equal.
    + apply same_letter_lower; assumption.
    + apply IH; assumption.
Qed.

Lemma caseless_eq_upper (t w : string) :
  caseless_eq t w = true -> all_chars is_upper w = true -> upper t = w.
Proof.
  revert w. induction t as [| a t IH]; intros [| b w] H Hw; simpl in *; try discriminate.
  - reflexivity.
  - apply andb_true_iff in H. destruct H as [Hab Htw].
    apply andb_true_iff in Hw. destruct Hw as [Hb Hw].
    unfold upper in *. simpl. f_equal.
    + apply same_letter_upper; assumption.
    + apply IH; assumption.
Qed.

Lemma caseless_eq_no_space (t w : string) :
  caseless_eq t w = true ->
  all_chars (fun c => is_lower c || is_upper c) w = true ->
  all_chars (fun c => negb (isspace c)) t = true.
Proof.
  revert w. induction t as [| a t IH]; intros [| b w] H Hw; simpl in *; try discriminate.
  - reflexivity.
  - apply andb_true_iff in H. destruct H as [Hab Htw].
    apply andb_true_iff in Hw. destruct Hw as [Hb Hw].
    rewrite (same_letter_not_space a b Hab Hb). simpl. eapply IH; eassumption.
Qed.

Lemma caseless_eq_length (t w : string) :
  caseless_eq t w = true -> String.length t = String.length w.
Proof.
  revert w. induction t as [| a t IH]; intros [| b w] H; simpl in *; try discriminate.
  - reflexivity.
  - apply andb_true_iff in H. destruct H as [_ H]. f_equal. apply IH; assumption.
Qed.

(** *** [strip] *)

Lemma lstrip_spaces_app (ws s : string) :
  all_space ws = true -> lstrip (ws ++ s) = lstrip s.
Proof.
  induction ws as [| c ws IH]; simpl; intros H.
  - reflexivity.
  - apply andb_true_iff in H. destruct H as [Hc Hws]. rewrite Hc. apply IH; assumption.
Qed.

Lemma rstrip_spaces (ws : string) : all_space ws = true -> rstrip ws = EmptyString.
Proof.
  induction ws as [| c ws IH]; simpl; intros H.
  - reflexivity.
  - apply andb_true_iff in H. destruct H as [Hc Hws]. rewrite IH, Hc by assumption. reflexivity.
Qed.

Lemma rstrip_app_spaces (s ws : string) :
  all_space ws = true -> rstrip (s ++ ws) = rstrip s.
Proof.
  intros H. induction s as [| c s IH]; simpl.
  - apply rstrip_spaces; assumption.
  - rewrite IH. reflexivity.
Qed.

Lemma lstrip_no_space (t : string) :
  all_chars (fun c => negb (isspace c)) t = true -> lstrip t = t.
Proof.
  destruct t as [| c t]; simpl; intros H.
  - reflexivity.
  - apply andb_true_iff in H. destruct H as [Hc _].
    apply negb_true_iff in Hc. rewrite Hc. reflexivity.
Qed.

Lemma rstrip_no_space (t : string) :
  all_chars (fun c => negb (isspace c)) t = true -> rstrip t = t.
Proof.
  induction t as [| c t IH]; simpl; intros H.
  - reflexivity.
  - apply andb_true_iff in H. destruct H as [Hc Ht].
    apply negb_true_iff in Hc. rewrite IH, Hc by assumption.
    destruct t; reflexivity.
Qed.

(** Stripping a word without whitespace that sits between whitespace
    gives the word back. *)
Lemma strip_padded (ws1 t ws2 : string) :
  all_space ws1 = true -> all_space ws2 = true ->
  all_chars (fun c => negb (isspace c)) t = true ->
  strip (ws1 ++ t ++ ws2) = t.
Proof.
  intros H1 H2 Ht. unfold strip. rewrite lstrip_spaces_app by assumption.
  destruct t as [| c t].
  - simpl. rewrite (rstrip_spaces (lstrip ws2)); [reflexivity |].
    clear H1 Ht. induction ws2 as [| d ws2 IH]; simpl in *; [reflexivity |].
    apply andb_true_iff in H2. destruct H2 as [Hd H2]. rewrite Hd. apply IH; assumption.
  - assert (Hc : isspace c = false).
    { simpl in Ht. apply andb_true_iff in Ht. destruct Ht as [Hc _].
      apply negb_true_iff in Hc. exact Hc. }
    change ((String c t ++ ws2)) with (String c (t ++ ws2)).
    cbn [lstrip]. rewrite Hc.
    change (String c (t ++ ws2)) with (String c t ++ ws2).
    rewrite rstrip_app_spaces by assumption. apply rstrip_no_space; assumption.
Qed.

Lemma map_chars_app (f : ascii -> ascii) (s t : string) :
  map_chars f (s ++ t) = map_chars f s ++ map_chars f t.
Proof. induction s as [| c s IH]; simpl; [reflexivity | rewrite IH; reflexivity]. Qed.

Lemma lower_app (s t : string) : lower (s ++ t) = lower s ++ lower t.
Proof. apply map_chars_app. Qed.

Lemma lower_spaces (ws : string) : all_space ws = true -> lower ws = ws.
Proof.
  unfold lower. induction ws as [| c ws IH]; simpl; intros H.
  - reflexivity.
  - apply andb_true_iff in H. destruct H as [Hc Hws].
    rewrite IH by assumption. unfold lower_char.
    rewrite (space_not_upper c Hc). reflexivity.
Qed.

Lemma length_app (s t : string) :
  String.length (s ++ t) = String.length s + String.length t.
Proof. induction s as [| c s IH]; simpl; [reflexivity | rewrite IH; reflexivity]. Qed.

Lemma app_assoc (s t u : string) : (s ++ t) ++ u = s ++ t ++ u.
Proof. induction s as [| c s IH]; simpl; [reflexivity | rewrite IH; reflexivity]. Qed.

Lemma mem_In (x : string) (l : list string) : mem x l = true <-> In x l.
Proof.
  induction l as [| y l IH]; simpl.
  - split; [discriminate | contradiction].
  - rewrite orb_true_iff, IH, String.eqb_eq. split; intros [H | H]; auto.
Qed.

Lemma app_empty (s t : string) : s ++ t = EmptyString -> s = EmptyString /\ t = EmptyString.
Proof. destruct s; simpl; [auto | discriminate]. Qed.

(** A word without whitespace, padded with whitespace on at least one side,
    is not a word that [strip] leaves alone. *)
Lemma padded_word_differs (ws1 t ws2 u : string) :
  all_space ws1 = true -> all_space ws2 = true ->
  all_chars (fun c => negb (isspace c)) t = true ->
  ws1 ++ ws2 <> EmptyString ->
  strip u = u ->
  ws1 ++ t ++ ws2 <> u.
Proof.
  intros H1 H2 Ht Hne Hu E.
  assert (Hs : strip (ws1 ++ t ++ ws2) = t) by (apply strip_padded; assumption).
  rewrite E, Hu in Hs. rewrite Hs in E.
  apply (f_equal String.length) in E. rewrite !length_app in E.
  apply Hne. destruct ws1, ws2; simpl in *; try reflexivity; lia.
Qed.

End PyStrFacts.

(** ** The chatbots: classification, extraction, orchestration *)

Module WeatherBotFacts.
Import WeatherBot.

Section Facts.
Variable World : Type.
Variable llm_backend : llm_request -> World -> result string * World.
Variable weather_backend : http_request -> World -> result http_response * World.
Variable float_repr : float -> string.
Variable container_repr : json -> string.

#[local] Abbreviation is_weather_query := (is_weather_query World llm_backend).
#[local] Abbreviation extract_location_from_query := (extract_location_from_query World llm_backend).
#[local] Abbreviation get_weather_by_location := (get_weather_by_location World weather_backend).
#[local] Abbreviation generate_weather_response :=
  (generate_weather_response World llm_backend float_repr container_repr).
#[local] Abbreviation handle_user_query :=
  (handle_user_query World llm_backend weather_backend float_repr container_repr).
#[local] Abbreviation loop_body :=
  (loop_body World llm_backend weather_backend float_repr container_repr).
#[local] Abbreviation main_loop :=
  (main_loop World llm_backend weather_backend float_repr container_repr).

(** What [is_weather_query] does, by the outcome of the backend call. *)
Lemma is_weather_query_reply b q st r w :
  llm_backend (request b Classify q None) (world st) = (Ok r, w) ->
  is_weather_query b q st
  = (Ok (is_yes b (PyStr.strip r)),
     mk_state w (trace st ++ [EvLLM (request b Classify q None)])%list).
Proof.
  intros H. unfold WeatherBot.is_weather_query, try_except, bind, call_llm, ret.
  rewrite H. reflexivity.
Qed.

Lemma is_weather_query_raise b q st e w :
  llm_backend (request b Classify q None) (world st) = (Raise e, w) ->
  is_weather_query b q st
  = (Ok true,
     mk_state w (trace st ++ [EvLLM (request b Classify q None);
                              EvPrint ("Error connecting to " ++ api_name b
                                       ++ " API: " ++ exn_msg e)])%list).
Proof.
  intros H.
  unfold WeatherBot.is_weather_query, try_except, bind, call_llm, ret, print, emit.
  rewrite H. simpl. rewrite <- List.app_assoc. reflexivity.
Qed.

(** [is_weather_query] absorbs every exception of its backend. *)
Lemma is_weather_query_total b q st :
  exists verdict, fst (is_weather_query b q st) = Ok verdict.
Proof.
  destruct (llm_backend (request b Classify q None) (world st)) as [[r | e] w] eqn:H.
  - rewrite (is_weather_query_reply _ _ _ _ _ H). eexists; reflexivity.
  - rewrite (is_weather_query_raise _ _ _ _ _ H). eexists; reflexivity.
Qed.

(** A verdict [False] comes from a reply, and leaves one event. *)
Lemma is_weather_query_false b q st :
  fst (is_weather_query b q st) = Ok false ->
  exists w, is_weather_query b q st
            = (Ok false, mk_state w (trace st ++ [EvLLM (request b Classify q None)])%list).
Proof.
  destruct (llm_backend (request b Classify q None) (world st)) as [[r | e] w] eqn:H.
  - rewrite (is_weather_query_reply _ _ _ _ _ H). simpl. intros E.
    exists w. congruence.
  - rewrite (is_weather_query_raise _ _ _ _ _ H). simpl. discriminate.
Qed.

(** C1. When the classifier's verdict on a query is false,
    [handle_user_query] returns exactly the redirect message, whatever the
    backends do, and the only action of the whole call is the one
    classification request: no extraction request, no weather lookup. *)
Theorem handle_user_query_redirects b q st :
  fst (is_weather_query b q st) = Ok false ->
  exists w,
    handle_user_query b q st
    = (Ok redirect_message,
       mk_state w (trace st ++ [EvLLM (request b Classify q None)])%list).
Proof.
  intros H. destruct (is_weather_query_false b q st H) as [w Hw].
  exists w. unfold WeatherBot.handle_user_query, bind. rewrite Hw. reflexivity.
Qed.



(** What [extract_location_from_query] does on a reply. *)
Lemma extract_location_reply b q st r w :
  llm_backend (request b Extract q None) (world st) = (Ok r, w) ->
  extract_location_from_query b q st
  = (Ok (if is_unknown b (PyStr.strip r) then None else Some (PyStr.strip r)),
     mk_state w (trace st ++ [EvLLM (request b Extract q None)])%list).
Proof.
  intros H. unfold WeatherBot.extract_location_from_query, try_except, bind, call_llm, ret.
  rewrite H. destruct (is_unknown b (PyStr.strip r)); reflexivity.
Qed.


(** *** The weather lookup *)

(** [get_weather_by_location] absorbs every exception: of the transport
    and of [response.json()]. *)
Lemma get_weather_by_location_total b location st :
  exists v, fst (get_weather_by_location b location st) = Ok v.
Proof.
  unfold WeatherBot.get_weather_by_location, try_except, bind, requests_get, print, ret, lift.
  destruct (weather_backend _ _) as [[resp | e] w]; simpl.
  - destruct (Z.eqb (status_code resp) 200).
    + destruct (json_body resp); simpl; eexists; reflexivity.
    + destruct (Z.eqb (status_code resp) 400); simpl.
      * eexists; reflexivity.
      * destruct (prints_response_text b); simpl; eexists; reflexivity.
  - eexists; reflexivity.
Qed.

(** The Orchestrator on an absent weather record. *)
Lemma handle_user_query_not_found b q st0 st1 st location st' v :
  is_weather_query b q st0 = (Ok true, st1) ->
  extract_location_from_query b q st1 = (Ok (Some location), st) ->
  PyStr.truthy location = true ->
  get_weather_by_location b location st = (Ok v, st') ->
  Json.truthy v = false ->
  handle_user_query b q st0 = (Ok (not_found_message location), st').
Proof.
  intros Hc He Hl Hw Hv. unfold WeatherBot.handle_user_query, bind.
  rewrite Hc. simpl. rewrite He. rewrite Hl. simpl. rewrite Hw, Hv. reflexivity.
Qed.

(** C5. A lookup that does not succeed yields the absence value and never
    an exception: for the status 400 (location not found) silently, for
    any other status than 200 after printing the status, for a transport
    failure after printing the exception.  Whatever the cause, the
    Orchestrator then answers with the not-found message that names the
    location. *)
Theorem failed_lookup_is_absence b location st out w :
  weather_backend (mk_http (ByName location) 10) (world st) = (out, w) ->
  Spec.lookup_failed out ->
  let rq := EvHTTP (mk_http (ByName location) 10) in
  let st' := snd (get_weather_by_location b location st) in
  fst (get_weather_by_location b location st) = Ok JNull
  /\ match out with
     | Raise e =>
         trace st' = (trace st
                      ++ [rq; EvPrint ("Error connecting to weather API: " ++ exn_msg e)])%list
     | Ok resp =>
         if Z.eqb (status_code resp) 400
         then trace st' = (trace st ++ [rq])%list
         else exists more,
             trace st'
             = (trace st
                ++ rq :: EvPrint ("Error: API request failed with status code "
                                  ++ PyStr.str_of_int (status_code resp)) :: more)%list
     end
  /\ forall q st0 st1,
       is_weather_query b q st0 = (Ok true, st1) ->
       extract_location_from_query b q st1 = (Ok (Some location), st) ->
       PyStr.truthy location = true ->
       handle_user_query b q st0 = (Ok (not_found_message location), st').
Proof.
  intros H Hf rq st'.
  assert (Hres : fst (get_weather_by_location b location st) = Ok JNull).
  { unfold WeatherBot.get_weather_by_location, try_except, bind, requests_get, print, ret, lift.
    rewrite H. destruct out as [resp | e]; simpl in *.
    - destruct (Z.eqb_spec (status_code resp) 200) as [E | _]; [contradiction |].
      destruct (Z.eqb (status_code resp) 400); simpl; [reflexivity |].
      destruct (prints_response_text b); reflexivity.
    - reflexivity. }
  split; [exact Hres | split].
  - subst st' rq.
    unfold WeatherBot.get_weather_by_location, try_except, bind, requests_get, print, ret, lift, emit.
    rewrite H. destruct out as [resp | e]; simpl in *.
    + destruct (Z.eqb_spec (status_code resp) 200) as [E | _]; [contradiction |].
      destruct (Z.eqb (status_code resp) 400); simpl; [reflexivity |].
      destruct (prints_response_text b); simpl.
      * eexists. rewrite <- !List.app_assoc. reflexivity.
      * eexists. rewrite <- !List.app_assoc. reflexivity.
    + rewrite <- List.app_assoc. reflexivity.
  - intros q st0 st1 Hc He Hl.
    eapply handle_user_query_not_found; try eassumption.
    + subst st'. rewrite <- Hres. apply surjective_pairing.
    + reflexivity.
Qed.

(** *** The composer and its fallback *)

(** With the backend of the composer down, the reply is the sentence of
    the fallback. *)
Lemma generate_weather_response_fallback b q wd st e w
    location country temperature humidity cloud wind condition :
  Spec.has_fields wd (mk_ctx location country temperature humidity cloud wind condition) ->
  llm_backend
    (request b Compose q
       (Some (mk_ctx location country temperature humidity cloud wind condition)))
    (world st) = (Raise e, w) ->
  fst (generate_weather_response b q wd st)
  = match Json.gt_50 cloud with
    | Ok many =>
        Ok ("The current weather in " ++ py_str float_repr container_repr location
            ++ " is a temperature of " ++ py_str float_repr container_repr temperature
            ++ " degrees (C), a humidity of "
            ++ py_str float_repr container_repr humidity ++ "%, "
            ++ (if many then "there are a lot of clouds" else "there are few clouds")
            ++ " in the sky and a wind of "
            ++ py_str float_repr container_repr wind ++ "km/h.")
    | Raise e' => Raise e'
    end.
Proof.
  intros (loc & cur & cond & H1 & H2 & H3 & H4 & H5 & H6 & H7 & H8 & H9 & H10) H.
  simpl in *.
  unfold WeatherBot.generate_weather_response, fallback_response,
    try_except, bind, lift, call_llm, print, ret.
  rewrite H1, H2, H3, H4, H5, H6, H7, H8, H9, H10, H. simpl.
  destruct (Json.gt_50 cloud); reflexivity.
Qed.

(** [f <= 50] excludes [50 < f], on binary64 numbers. *)
Lemma float_le_50_not_gt (f : float) :
  PrimFloat.leb f 50%float = true -> PrimFloat.ltb 50%float f = false.
Proof.
  rewrite leb_spec, ltb_spec.
  replace (Prim2SF 50%float) with (S754_finite false 7036874417766400 (-47))
    by (vm_compute; reflexivity).
  generalize 7036874417766400%positive (-47)%Z. intros m0 e0.
  unfold SFleb, SFltb, SFcompare.
  destruct (Prim2SF f) as [s | s | | s m ex];
    try destruct s; try discriminate; try reflexivity.
  rewrite (Z.compare_antisym ex e0).
  destruct (Z.compare ex e0); cbn [CompOpp]; try discriminate; try reflexivity.
  rewrite !Pos.compare_cont_spec. cbn [Pos.switch_Eq].
  rewrite (Pos.compare_antisym m m0).
  destruct (Pos.compare m m0); cbn; try discriminate; reflexivity.
Qed.

(** C6. In the fallback sentence the threshold on the cloud cover is
    strict: a cover strictly greater than 50 gives "there are a lot of
    clouds", a cover less than or equal to 50, 50 included, gives "there
    are few clouds". *)
Theorem fallback_cloud_threshold_is_strict b q wd st e w
    location country temperature humidity cloud wind condition :
  Spec.has_fields wd (mk_ctx location country temperature humidity cloud wind condition) ->
  llm_backend
    (request b Compose q
       (Some (mk_ctx location country temperature humidity cloud wind condition)))
    (world st) = (Raise e, w) ->
  let sentence clause :=
    "The current weather in " ++ py_str float_repr container_repr location
    ++ " is a temperature of " ++ py_str float_repr container_repr temperature
    ++ " degrees (C), a humidity of "
    ++ py_str float_repr container_repr humidity ++ "%, "
    ++ clause ++ " in the sky and a wind of "
    ++ py_str float_repr container_repr wind ++ "km/h." in
  (Spec.above_50 cloud ->
   fst (generate_weather_response b q wd st) = Ok (sentence "there are a lot of clouds"))
  /\ (Spec.at_most_50 cloud ->
      fst (generate_weather_response b q wd st) = Ok (sentence "there are few clouds")).
Proof.
  intros Hf H sentence.
  rewrite (generate_weather_response_fallback _ _ _ _ _ _ _ _ _ _ _ _ _ Hf H).
  split; intros Hc; destruct cloud as [| c | z | f | s | l | kvs]; simpl in Hc; try contradiction;
    simpl.
  - replace (Z.ltb 50 z) with true by (symmetry; apply Z.ltb_lt; exact Hc). reflexivity.
  - rewrite Hc. reflexivity.
  - replace (Z.ltb 50 z) with false by (symmetry; apply Z.ltb_ge; exact Hc). reflexivity.
  - rewrite (float_le_50_not_gt f Hc). reflexivity.
Qed.

(** C7. With the backend of the composer down and a record with
    temp_c = 30, humidity = 40, cloud = 80 and wind_kph = 15, the reply is
    the fallback sentence, and it contains "30", "40%", "a lot of clouds"
    and "15km/h". *)
Theorem fallback_scenario_E b q wd st e w location country condition :
  Spec.has_fields wd (mk_ctx location country (JInt 30) (JInt 40) (JInt 80) (JInt 15) condition) ->
  llm_backend
    (request b Compose q
       (Some (mk_ctx location country (JInt 30) (JInt 40) (JInt 80) (JInt 15) condition)))
    (world st) = (Raise e, w) ->
  exists reply,
    fst (generate_weather_response b q wd st) = Ok reply
    /\ PyStr.occurs_in "30" reply
    /\ PyStr.occurs_in "40%" reply
    /\ PyStr.occurs_in "a lot of clouds" reply
    /\ PyStr.occurs_in "15km/h" reply.
Proof.
  intros Hf H.
  rewrite (generate_weather_response_fallback _ _ _ _ _ _ _ _ _ _ _ _ _ Hf H).
  cbn [Json.gt_50]. replace (Z.ltb 50 80) with true by reflexivity.
  change (py_str float_repr container_repr (JInt 30)) with "30".
  change (py_str float_repr container_repr (JInt 40)) with "40".
  change (py_str float_repr container_repr (JInt 15)) with "15".
  set (L := py_str float_repr container_repr location).
  eexists. split; [reflexivity |]. unfold PyStr.occurs_in.
  repeat split.
  - exists ("The current weather in " ++ L ++ " is a temperature of ").
    eexists. rewrite !PyStrFacts.app_assoc. reflexivity.
  - exists ("The current weather in " ++ L
            ++ " is a temperature of 30 degrees (C), a humidity of ").
    eexists. rewrite !PyStrFacts.app_assoc. reflexivity.
  - exists ("The current weather in " ++ L
            ++ " is a temperature of 30 degrees (C), a humidity of 40%, there are ").
    eexists. rewrite !PyStrFacts.app_assoc. reflexivity.
  - exists ("The current weather in " ++ L
            ++ " is a temperature of 30 degrees (C), a humidity of 40%, "
            ++ "there are a lot of clouds in the sky and a wind of ").
    eexists. rewrite !PyStrFacts.app_assoc. reflexivity.
Qed.

(** *** The interactive loop *)

Lemma exit_keywords_lower kw :
  In kw exit_keywords -> PyStr.all_chars PyStr.is_lower kw = true.
Proof. intros [<- | [<- | [<- | [<- | []]]]]; reflexivity. Qed.

Lemma exit_keywords_stripped kw : In kw exit_keywords -> PyStr.strip kw = kw.
Proof. intros [<- | [<- | [<- | [<- | []]]]]; reflexivity. Qed.

Lemma lower_letters_no_space s :
  PyStr.all_chars PyStr.is_lower s = true ->
  PyStr.all_chars (fun c => negb (PyStr.isspace c)) s = true.
Proof.
  induction s as [| c s IH]; simpl; intros H; [reflexivity |].
  apply andb_true_iff in H. destruct H as [Hc Hs].
  rewrite (PyStrFacts.lower_not_space c Hc). simpl. apply IH; assumption.
Qed.

Lemma lower_letters_are_letters s :
  PyStr.all_chars PyStr.is_lower s = true ->
  PyStr.all_chars (fun c => PyStr.is_lower c || PyStr.is_upper c) s = true.
Proof.
  induction s as [| c s IH]; simpl; intros H; [reflexivity |].
  apply andb_true_iff in H. destruct H as [Hc Hs].
  rewrite Hc. simpl. apply IH; assumption.
Qed.

(** C9. A line that is an exit keyword (in any letter case) with
    whitespace before or after it is not taken for an exit command: the
    lower-cased raw line is not one of the keywords, its stripped form is
    not empty, so the turn hands the raw line to [handle_user_query],
    prints the outcome and the loop goes on with the next line. *)
Theorem padded_exit_keyword_is_a_query b st ws1 k ws2 kw :
  In kw exit_keywords ->
  PyStr.caseless_eq k kw = true ->
  PyStr.all_space ws1 = true ->
  PyStr.all_space ws2 = true ->
  ws1 ++ ws2 <> EmptyString ->
  let line := ws1 ++ k ++ ws2 in
  PyStr.mem (PyStr.lower line) exit_keywords = false
  /\ PyStr.strip line = k
  /\ loop_body b (Some (Line line)) st
     = (Continue,
        match handle_user_query b line (emit (EvInput "Ask?: ") st) with
        | (Ok response, st') => emit (EvPrint EmptyString) (emit (EvPrint response) st')
        | (Raise e, st') =>
            emit (EvPrint "Please try again with a different question.")
              (emit (EvPrint ("An error occurred: " ++ exn_msg e)) st')
        end)
  /\ forall n rest,
       main_loop b (S n) (Line line :: rest) st
       = main_loop b n rest (snd (loop_body b (Some (Line line)) st)).
Proof.
  intros Hkw Hk H1 H2 Hne line.
  pose proof (exit_keywords_lower kw Hkw) as Hlow.
  assert (Hknsp : PyStr.all_chars (fun c => negb (PyStr.isspace c)) k = true).
  { apply (PyStrFacts.caseless_eq_no_space k kw Hk).
    apply lower_letters_are_letters; assumption. }
  assert (Hmem : PyStr.mem (PyStr.lower line) exit_keywords = false).
  { destruct (PyStr.mem (PyStr.lower line) exit_keywords) eqn:E; [exfalso | reflexivity].
    apply PyStrFacts.mem_In in E. subst line.
    rewrite !PyStrFacts.lower_app in E.
    rewrite (PyStrFacts.lower_spaces ws1 H1), (PyStrFacts.lower_spaces ws2 H2) in E.
    rewrite (PyStrFacts.caseless_eq_lower k kw Hk Hlow) in E. refine (PyStrFacts.padded_word_differs ws1 kw ws2 _ H1 H2 _ Hne _ eq_refl).
    - apply lower_letters_no_space; assumption.
    - apply exit_keywords_stripped; assumption. }
  assert (Hstrip : PyStr.strip line = k)
    by (subst line; apply PyStrFacts.strip_padded; assumption).
  assert (Htruthy : PyStr.truthy k = true).
  { pose proof (PyStrFacts.caseless_eq_length k kw Hk) as Hlen.
    destruct k; [| reflexivity].
    destruct Hkw as [<- | [<- | [<- | [<- | []]]]]; discriminate. }
  assert (Hbody :
    loop_body b (Some (Line line)) st
    = (Continue,
       match handle_user_query b line (emit (EvInput "Ask?: ") st) with
       | (Ok response, st') => emit (EvPrint EmptyString) (emit (EvPrint response) st')
       | (Raise e, st') =>
           emit (EvPrint "Please try again with a different question.")
             (emit (EvPrint ("An error occurred: " ++ exn_msg e)) st')
       end)).
  { unfold WeatherBot.loop_body. rewrite Hmem, Hstrip, Htruthy. simpl.
    destruct (handle_user_query b line (emit (EvInput "Ask?: ") st)) as [[r | e] st'];
      reflexivity. }
  repeat split; try assumption.
  intros n rest. cbn [WeatherBot.main_loop hd_error tl].
  rewrite Hbody. reflexivity.
Qed.

End Facts.

End WeatherBotFacts.

(** ** The coordinate script: validation before the lookup *)

Module WeatherFacts.
Import Weather.

Section Facts.
Variable World : Type.
Variable weather_backend : http_request -> World -> result http_response * World.
Variable py_float : string -> option float.
Variable API_KEY : option string.
Variable float_repr : float -> string.
Variable container_repr : json -> string.

#[local] Abbreviation keeps := (Spec.keeps World).
#[local] Abbreviation validate_body := (validate_body py_float).
#[local] Abbreviation validate_coordinates := (validate_coordinates py_float).
#[local] Abbreviation get_weather := (get_weather World weather_backend API_KEY).
#[local] Abbreviation display_weather := (display_weather World float_repr container_repr).
#[local] Abbreviation ask_coordinate := (ask_coordinate World py_float).
#[local] Abbreviation main :=
  (main World weather_backend py_float API_KEY float_repr container_repr).

(** *** [validate_coordinates] *)

Lemma validate_body_latitude value x :
  py_float value = Some x ->
  Spec.latitude_out_of_range x ->
  validate_body value "latitude"
  = Raise (mk_exn ValueError "Latitude must be between -90 and 90 degrees").
Proof.
  intros Hp Hr. unfold Weather.validate_body. rewrite Hp.
  replace (PrimFloat.ltb x (-90)%float || PrimFloat.ltb 90%float x) with true.
  - reflexivity.
  - symmetry. apply orb_true_iff. exact Hr.
Qed.

Lemma validate_body_longitude value x :
  py_float value = Some x ->
  Spec.longitude_out_of_range x ->
  validate_body value "longitude"
  = Raise (mk_exn ValueError "Longitude must be between -180 and 180 degrees").
Proof.
  intros Hp Hr. unfold Weather.validate_body. rewrite Hp.
  replace (PrimFloat.ltb x (-180)%float || PrimFloat.ltb 180%float x) with true.
  - reflexivity.
  - symmetry. apply orb_true_iff. exact Hr.
Qed.

(** [validate_coordinates] raises nothing but [ValueError]. *)
Lemma validate_coordinates_raises_ValueError value coord_type e :
  validate_coordinates value coord_type = Raise e -> exn_cls e = ValueError.
Proof.
  unfold Weather.validate_coordinates.
  destruct (validate_body value coord_type) as [c | e'] eqn:Hb; [discriminate |].
  assert (He' : exn_cls e' = ValueError).
  { revert Hb. unfold Weather.validate_body.
    destruct (py_float value) as [c |]; [| intros [= <-]; reflexivity].
    repeat match goal with |- context [if ?t then _ else _] => destruct t end;
      try discriminate; intros [= <-]; reflexivity. }
  rewrite He'. intros [= <-]. reflexivity.
Qed.

(** A value [validate_coordinates] returns passed the test of its range. *)
Lemma validate_coordinates_latitude_ok value c :
  validate_coordinates value "latitude" = Ok c -> ~ Spec.latitude_out_of_range c.
Proof.
  unfold Weather.validate_coordinates, Weather.validate_body.
  destruct (py_float value) as [x |]; [| discriminate].
  change (String.eqb "latitude" "latitude") with true.
  change (String.eqb "latitude" "longitude") with false.
  cbn [andb].
  destruct (PrimFloat.ltb x (-90)%float || PrimFloat.ltb 90%float x) eqn:Hr;
    [discriminate |].
  intros [= <-] Hout. apply orb_true_iff in Hout. congruence.
Qed.

Lemma validate_coordinates_longitude_ok value c :
  validate_coordinates value "longitude" = Ok c -> ~ Spec.longitude_out_of_range c.
Proof.
  unfold Weather.validate_coordinates, Weather.validate_body.
  destruct (py_float value) as [x |]; [| discriminate].
  change (String.eqb "longitude" "latitude") with false.
  change (String.eqb "longitude" "longitude") with true.
  cbn [andb].
  destruct (PrimFloat.ltb x (-180)%float || PrimFloat.ltb 180%float x) eqn:Hr;
    [discriminate |].
  intros [= <-] Hout. apply orb_true_iff in Hout. congruence.
Qed.

(** C10. For an input that parses to a number outside the range of its
    coordinate, the body of the [try] raises the range-specific
    [ValueError], the enclosing [except ValueError] catches it, and what
    [validate_coordinates] raises is the generic format message. *)
Theorem out_of_range_reports_format_message value x :
  py_float value = Some x ->
  (Spec.latitude_out_of_range x ->
   validate_body value "latitude"
   = Raise (mk_exn ValueError "Latitude must be between -90 and 90 degrees")
   /\ validate_coordinates value "latitude"
      = Raise (mk_exn ValueError "Invalid latitude format. Please enter a number."))
  /\ (Spec.longitude_out_of_range x ->
      validate_body value "longitude"
      = Raise (mk_exn ValueError "Longitude must be between -180 and 180 degrees")
      /\ validate_coordinates value "longitude"
         = Raise (mk_exn ValueError "Invalid longitude format. Please enter a number.")).
Proof.
  intros Hp. split; intros Hr.
  - pose proof (validate_body_latitude value x Hp Hr) as Hb.
    split; [exact Hb |]. unfold Weather.validate_coordinates. rewrite Hb. reflexivity.
  - pose proof (validate_body_longitude value x Hp Hr) as Hb.
    split; [exact Hb |]. unfold Weather.validate_coordinates. rewrite Hb. reflexivity.
Qed.

(** *** The requests of [main] *)

Lemma in_range_emit ev (st : state World) :
  Spec.quiet ev ->
  Spec.requests_in_range (trace st) -> Spec.requests_in_range (trace (emit ev st)).
Proof.
  intros Hq H lat lon t Hin. simpl in Hin. apply in_app_or in Hin.
  destruct Hin as [Hin | [E | []]]; [eapply H; eassumption |].
  subst ev. contradiction.
Qed.

Lemma keeps_ret {A} (a : A) : keeps (ret a).
Proof. intros st H. exact H. Qed.

Lemma keeps_lift {A} (r : result A) : keeps (lift r).
Proof. intros st H. exact H. Qed.

Lemma keeps_print s : keeps (print s).
Proof. intros st H. apply (in_range_emit (EvPrint s)); [exact I | exact H]. Qed.

Lemma keeps_bind {A B} (c : M World A) (k : A -> M World B) :
  keeps c -> (forall a, keeps (k a)) -> keeps (bind c k).
Proof.
  intros Hc Hk st H. unfold bind. specialize (Hc st H).
  destruct (c st) as [[a | e] st']; simpl in *; [apply Hk; exact Hc | exact Hc].
Qed.

Lemma keeps_try_except {A} (c : M World A) (h : exn -> M World A) :
  keeps c -> (forall e, keeps (h e)) -> keeps (try_except c h).
Proof.
  intros Hc Hh st H. unfold try_except. specialize (Hc st H).
  destruct (c st) as [[a | e] st']; simpl in *; [exact Hc | apply Hh; exact Hc].
Qed.

Lemma keeps_if {A} (t : bool) (c1 c2 : M World A) :
  keeps c1 -> keeps c2 -> keeps (if t then c1 else c2).
Proof. destruct t; auto. Qed.

Ltac keeps_tac :=
  repeat first
    [ apply keeps_ret | apply keeps_lift | apply keeps_print
    | apply keeps_if | apply keeps_try_except | apply keeps_bind | intro ].

Lemma keeps_requests_get lat lon t :
  ~ Spec.latitude_out_of_range lat -> ~ Spec.longitude_out_of_range lon ->
  keeps (Weather.requests_get World weather_backend (mk_http (ByCoords lat lon) t)).
Proof.
  intros Hlat Hlon st H. unfold Weather.requests_get.
  destruct (weather_backend _ _) as [r w]. simpl.
  intros lat' lon' t' Hin. apply in_app_or in Hin.
  destruct Hin as [Hin | [E | []]]; [eapply H; eassumption |].
  injection E as <- <- <-. split; assumption.
Qed.

Lemma keeps_get_weather lat lon :
  ~ Spec.latitude_out_of_range lat -> ~ Spec.longitude_out_of_range lon ->
  keeps (get_weather lat lon).
Proof.
  intros Hlat Hlon. unfold Weather.get_weather.
  apply keeps_if; [keeps_tac |].
  apply keeps_try_except.
  - apply keeps_bind; [apply keeps_requests_get; assumption |]. keeps_tac.
  - intros e. destruct (exn_cls e); keeps_tac.
Qed.

Lemma keeps_display_weather wd : keeps (display_weather wd).
Proof. unfold Weather.display_weather, print_field. keeps_tac. Qed.

(** A prompt loop issues no request, and what it returns passed
    [validate_coordinates]. *)
Lemma ask_coordinate_keeps prompt coord_type stdin st :
  Spec.requests_in_range (trace st) ->
  Spec.requests_in_range (trace (snd (ask_coordinate prompt coord_type stdin st))).
Proof.
  revert st. induction stdin as [| [value |] rest IH]; intros st H; cbn [Weather.ask_coordinate].
  - simpl. apply (in_range_emit (EvInput prompt)); [exact I | exact H].
  - destruct (validate_coordinates value coord_type) as [c | e] eqn:Hv.
    + simpl. apply (in_range_emit (EvInput prompt)); [exact I | exact H].
    + rewrite (validate_coordinates_raises_ValueError _ _ _ Hv).
      apply IH. apply (in_range_emit (EvPrint _)); [exact I |].
      apply (in_range_emit (EvInput prompt)); [exact I | exact H].
  - simpl. apply (in_range_emit (EvInput prompt)); [exact I | exact H].
Qed.

Lemma ask_coordinate_validated prompt coord_type stdin st c rest st' :
  ask_coordinate prompt coord_type stdin st = (Got c, rest, st') ->
  exists value, validate_coordinates value coord_type = Ok c.
Proof.
  revert st. induction stdin as [| [value |] tl IH]; intros st; cbn [Weather.ask_coordinate].
  - discriminate.
  - destruct (validate_coordinates value coord_type) as [c' | e] eqn:Hv.
    + intros [= <- <- <-]. exists value. exact Hv.
    + rewrite (validate_coordinates_raises_ValueError _ _ _ Hv). apply IH.
  - discriminate.
Qed.

(** Every request [main] issues carries validated coordinates. *)
Lemma main_requests_in_range stdin st :
  Spec.requests_in_range (trace st) ->
  Spec.requests_in_range (trace (snd (main stdin st))).
Proof.
  intros H. unfold Weather.main.
  set (st0 := emit (EvPrint "==========================")
                (emit (EvPrint "Weather Information Program") st)).
  assert (H0 : Spec.requests_in_range (trace st0)).
  { subst st0. do 2 (apply (in_range_emit (EvPrint _)); [exact I |]). exact H. }
  pose proof (ask_coordinate_keeps "Latitude?: " "latitude" stdin st0 H0) as H1.
  destruct (ask_coordinate "Latitude?: " "latitude" stdin st0)
    as [[[latitude | | e] stdin1] st1] eqn:E1; simpl in H1.
  - pose proof (ask_coordinate_keeps "Longitude?: " "longitude" stdin1 st1 H1) as H2.
    destruct (ask_coordinate "Longitude?: " "longitude" stdin1 st1)
      as [[[longitude | | e] stdin2] st2] eqn:E2; simpl in H2.
    + destruct (ask_coordinate_validated _ _ _ _ _ _ _ E1) as [v1 Hv1].
      destruct (ask_coordinate_validated _ _ _ _ _ _ _ E2) as [v2 Hv2].
      pose proof (keeps_get_weather latitude longitude
                    (validate_coordinates_latitude_ok _ _ Hv1)
                    (validate_coordinates_longitude_ok _ _ Hv2) st2 H2) as H3.
      destruct (get_weather latitude longitude st2) as [[wd | e] st3]; simpl in H3.
      * destruct (Json.truthy wd).
        -- pose proof (keeps_display_weather wd st3 H3) as H4.
           destruct (display_weather wd st3) as [[u | e] st4]; simpl in *.
           ++ exact H4.
           ++ apply (in_range_emit (EvPrint _)); [exact I | exact H4].
        -- simpl. apply (in_range_emit (EvPrint _)); [exact I | exact H3].
      * simpl. apply (in_range_emit (EvPrint _)); [exact I | exact H3].
    + simpl. apply (in_range_emit (EvPrint _)); [exact I | exact H2].
    + simpl. apply (in_range_emit (EvPrint _)); [exact I | exact H2].
  - simpl. apply (in_range_emit (EvPrint _)); [exact I | exact H1].
  - simpl. apply (in_range_emit (EvPrint _)); [exact I | exact H1].
Qed.


(** Not a number is neither below nor above a bound: [validate_coordinates]
    returns it. *)
Lemma validate_coordinates_nan value coord_type :
  py_float value = Some PrimFloat.nan ->
  validate_coordinates value coord_type = Ok PrimFloat.nan.
Proof.
  intros Hp. unfold Weather.validate_coordinates, Weather.validate_body. rewrite Hp.
  replace (PrimFloat.ltb nan (-90)%float || PrimFloat.ltb 90%float nan) with false
    by (vm_compute; reflexivity).
  replace (PrimFloat.ltb nan (-180)%float || PrimFloat.ltb 180%float nan) with false
    by (vm_compute; reflexivity).
  rewrite !andb_false_r. reflexivity.
Qed.

End Facts.

End WeatherFacts.

(** ** The statements on concrete runs *)

Module Runs.
Import Scenario.
Import WeatherBot.

#[local] Abbreviation is_weather_query llm := (WeatherBot.is_weather_query unit llm).
#[local] Abbreviation extract_location_from_query llm :=
  (WeatherBot.extract_location_from_query unit llm).
#[local] Abbreviation get_weather_by_location http :=
  (WeatherBot.get_weather_by_location unit http).
#[local] Abbreviation generate_weather_response llm :=
  (WeatherBot.generate_weather_response unit llm plain_repr plain_repr).
#[local] Abbreviation handle_user_query llm http :=
  (WeatherBot.handle_user_query unit llm http plain_repr plain_repr).
#[local] Abbreviation loop_body llm http :=
  (WeatherBot.loop_body unit llm http plain_repr plain_repr).

Lemma handle_user_query_redirects_witness :
  fst (is_weather_query says_no Claude "Tell me a joke" start) = Ok false
  /\ exists w,
      handle_user_query says_no finds_paris Claude "Tell me a joke" start
      = (Ok redirect_message,
         mk_state w ([] ++ [EvLLM (request Claude Classify "Tell me a joke" None)])%list).
Proof.
  split; [reflexivity |].
  apply (WeatherBotFacts.handle_user_query_redirects unit says_no finds_paris
           plain_repr plain_repr Claude "Tell me a joke" start).
  reflexivity.
Defined.






Lemma failed_lookup_is_absence_witness :
  fst (get_weather_by_location server_error Groq "Zzqxplorp"
         (after_extraction Groq "Weather in Zzqxplorp?")) = Ok JNull
  /\ fst (handle_user_query composer_down server_error Groq "Weather in Zzqxplorp?" start)
     = Ok (not_found_message "Zzqxplorp").
Proof.
  pose proof (WeatherBotFacts.failed_lookup_is_absence unit composer_down server_error
                plain_repr plain_repr Groq "Zzqxplorp"
                (after_extraction Groq "Weather in Zzqxplorp?")
                (Ok (mk_resp 500 "Internal Server Error"
                       (Raise (mk_exn ValueError "no JSON")))) tt eq_refl)
    as H.
  assert (Hf : Spec.lookup_failed
                 (Ok (mk_resp 500 "Internal Server Error"
                        (Raise (mk_exn ValueError "no JSON")))))
    by (simpl; discriminate).
  destruct (H Hf) as (H1 & _ & H3).
  split; [exact H1 |].
  rewrite (H3 "Weather in Zzqxplorp?" start
             (mk_state tt [EvLLM (request Groq Classify "Weather in Zzqxplorp?" None)])
             eq_refl eq_refl eq_refl).
  reflexivity.
Defined.

Lemma paris_has_fields : Spec.has_fields paris paris_ctx.
Proof. exists (JObj [("name", JStr "Paris"); ("country", JStr "France")]).
  eexists. eexists. repeat split; reflexivity.
Qed.

Lemma paris_with_cloud_has_fields cloud :
  Spec.has_fields (paris_with_cloud cloud)
    (mk_ctx (JStr "Paris") (JStr "France") (JInt 30) (JInt 40) cloud (JInt 15) (JStr "Sunny")).
Proof. exists (JObj [("name", JStr "Paris"); ("country", JStr "France")]).
  eexists. eexists. repeat split; reflexivity.
Qed.

Lemma fallback_cloud_threshold_is_strict_witness :
  fst (generate_weather_response composer_down Claude "Is it cloudy in Paris?"
         (paris_with_cloud (JInt 51)) start)
  = Ok ("The current weather in Paris is a temperature of 30 degrees (C), "
        ++ "a humidity of 40%, there are a lot of clouds in the sky and a wind of 15km/h.")
  /\ fst (generate_weather_response composer_down Claude "Is it cloudy in Paris?"
            (paris_with_cloud (JInt 50)) start)
     = Ok ("The current weather in Paris is a temperature of 30 degrees (C), "
           ++ "a humidity of 40%, there are few clouds in the sky and a wind of 15km/h.")
  /\ fst (generate_weather_response composer_down Claude "Is it cloudy in Paris?"
            (paris_with_cloud (JFloat 50%float)) start)
     = Ok ("The current weather in Paris is a temperature of 30 degrees (C), "
           ++ "a humidity of 40%, there are few clouds in the sky and a wind of 15km/h.").
Proof.
  split; [| split].
  - apply (WeatherBotFacts.fallback_cloud_threshold_is_strict unit composer_down
             plain_repr plain_repr Claude "Is it cloudy in Paris?"
             (paris_with_cloud (JInt 51)) start backend_down tt
             (JStr "Paris") (JStr "France") (JInt 30) (JInt 40) (JInt 51) (JInt 15) (JStr "Sunny")
             (paris_with_cloud_has_fields (JInt 51)) eq_refl).
    simpl. lia.
  - apply (WeatherBotFacts.fallback_cloud_threshold_is_strict unit composer_down
             plain_repr plain_repr Claude "Is it cloudy in Paris?"
             (paris_with_cloud (JInt 50)) start backend_down tt
             (JStr "Paris") (JStr "France") (JInt 30) (JInt 40) (JInt 50) (JInt 15) (JStr "Sunny")
             (paris_with_cloud_has_fields (JInt 50)) eq_refl).
    simpl. lia.
  - apply (WeatherBotFacts.fallback_cloud_threshold_is_strict unit composer_down
             plain_repr plain_repr Claude "Is it cloudy in Paris?"
             (paris_with_cloud (JFloat 50%float)) start backend_down tt
             (JStr "Paris") (JStr "France") (JInt 30) (JInt 40) (JFloat 50%float) (JInt 15)
             (JStr "Sunny")
             (paris_with_cloud_has_fields (JFloat 50%float)) eq_refl).
    vm_compute. reflexivity.
Defined.

Lemma fallback_scenario_E_witness :
  exists reply,
    fst (generate_weather_response composer_down OpenAI "How is the weather in Paris?"
           paris start) = Ok reply
    /\ PyStr.occurs_in "30" reply
    /\ PyStr.occurs_in "40%" reply
    /\ PyStr.occurs_in "a lot of clouds" reply
    /\ PyStr.occurs_in "15km/h" reply.
Proof.
  apply (WeatherBotFacts.fallback_scenario_E unit composer_down plain_repr plain_repr
           OpenAI "How is the weather in Paris?" paris start backend_down tt
           (JStr "Paris") (JStr "France") (JStr "Sunny") paris_has_fields eq_refl).
Defined.

Lemma padded_exit_keyword_is_a_query_witness :
  PyStr.mem (PyStr.lower " exit ") exit_keywords = false
  /\ fst (loop_body says_no finds_paris Claude (Some (Line " exit ")) start) = Continue.
Proof.
  destruct (WeatherBotFacts.padded_exit_keyword_is_a_query unit says_no finds_paris
              plain_repr plain_repr Claude start " " "exit" " " "exit")
    as (H1 & _ & H3 & _).
  - simpl. auto.
  - reflexivity.
  - reflexivity.
  - reflexivity.
  - discriminate.
  - split; [exact H1 |]. apply (f_equal fst) in H3. exact H3.
Defined.


Lemma out_of_range_reports_format_message_witness :
  Weather.validate_coordinates table_float "200" "longitude"
  = Raise (mk_exn ValueError "Invalid longitude format. Please enter a number.")
  /\ Weather.validate_coordinates table_float "-90.5" "latitude"
     = Raise (mk_exn ValueError "Invalid latitude format. Please enter a number.").
Proof.
  split.
  - destruct (WeatherFacts.out_of_range_reports_format_message table_float
                "200" 200%float eq_refl) as (_ & H).
    apply H. right. vm_compute. reflexivity.
  - destruct (WeatherFacts.out_of_range_reports_format_message table_float
                "-90.5" (-90.5)%float eq_refl) as (H & _).
    apply H. left. vm_compute. reflexivity.
Defined.

(** A run of [weather.py]: 91 is refused as a latitude, 200 as a longitude,
    and the one request carries 45 and 10. *)
Example weather_main_run :
  firstn 9
    (trace (snd (Weather.main unit finds_sao_paulo table_float (Some "key")
                   plain_repr plain_repr
                   [Line "91"; Line "45"; Line "200"; Line "10"] start)))
  = [EvPrint "Weather Information Program";
     EvPrint "==========================";
     EvInput "Latitude?: ";
     EvPrint "Error: Invalid latitude format. Please enter a number.";
     EvInput "Latitude?: ";
     EvInput "Longitude?: ";
     EvPrint "Error: Invalid longitude format. Please enter a number.";
     EvInput "Longitude?: ";
     EvHTTP (mk_http (ByCoords 45%float 10%float) 10)].
Proof. vm_compute. reflexivity. Qed.

(** Scenario A to D of the chatbot, on scripted backends. *)
Example scenario_B :
  fst (handle_user_query says_no finds_paris Claude "Tell me a joke" start)
  = Ok redirect_message.
Proof. reflexivity. Qed.

Example scenario_C :
  fst (handle_user_query (scripted_llm (Ok "YES") (Ok "UNKNOWN") (Ok "Fine."))
         finds_paris Gemini "Will it be sunny tomorrow?" start)
  = Ok clarification_message.
Proof. reflexivity. Qed.

Example scenario_D :
  fst (handle_user_query composer_down
         (scripted_http (Ok (mk_resp 400 EmptyString (Raise (mk_exn ValueError "no JSON")))))
         OpenAI "Weather in Zzqxplorp?" start)
  = Ok "I couldn't find weather information for 'Zzqxplorp'. Please check the spelling or try a different location.".
Proof. reflexivity. Qed.

Example scenario_A :
  fst (handle_user_query (scripted_llm (Ok "YES") (Ok "Paris") (Ok " It is sunny in Paris. "))
         finds_paris Claude "What's the weather in Paris?" start)
  = Ok "It is sunny in Paris.".
Proof. reflexivity. Qed.

End Runs.

(** ** Traces: what a computation adds *)

Module CallsFacts.
Import Calls.

Lemma calls_app (a b : list event) : calls (a ++ b) = (calls a ++ calls b)%list.
Proof.
  induction a as [| ev a IH]; simpl; [reflexivity |].
  destruct (call_of ev); simpl; rewrite IH; reflexivity.
Qed.

Lemma http_count_app (a b : list event) :
  http_count (a ++ b) = http_count a + http_count b.
Proof.
  induction a as [| ev a IH]; simpl; [reflexivity |].
  destruct ev; simpl; rewrite IH; reflexivity.
Qed.

Lemma http_count_quiet (evs : list event) : Forall Spec.quiet evs -> http_count evs = 0.
Proof.
  induction 1 as [| ev evs Hq _ IH]; simpl; [reflexivity |].
  destruct ev; simpl in *; try assumption. contradiction.
Qed.

Lemma calls_prints (evs : list event) :
  Forall (fun ev => call_of ev = None) evs -> calls evs = [].
Proof.
  induction 1 as [| ev evs Hq _ IH]; simpl; [reflexivity |]. rewrite Hq. exact IH.
Qed.

Section Quiet.
Variable World : Type.

Lemma quiet_ret {A} (a : A) : quiet_only (World := World) (ret a).
Proof. intros st. exists []. rewrite List.app_nil_r. split; [reflexivity | constructor]. Qed.

Lemma quiet_lift {A} (r : result A) : quiet_only (World := World) (lift r).
Proof. intros st. exists []. rewrite List.app_nil_r. split; [reflexivity | constructor]. Qed.

Lemma quiet_print (s : string) : quiet_only (World := World) (print s).
Proof.
  intros st. exists [EvPrint s]. split; [reflexivity |].
  constructor; [exact I | constructor].
Qed.

Lemma quiet_bind {A B} (c : M World A) (k : A -> M World B) :
  quiet_only c -> (forall a, quiet_only (k a)) -> quiet_only (bind c k).
Proof.
  intros Hc Hk st. unfold bind. destruct (Hc st) as (e1 & H1 & Q1).
  destruct (c st) as [[a | e] st1]; simpl in *.
  - destruct (Hk a st1) as (e2 & H2 & Q2). exists (e1 ++ e2)%list.
    rewrite H2, H1, List.app_assoc. split; [reflexivity | apply Forall_app; auto].
  - exists e1. auto.
Qed.

Lemma quiet_try_except {A} (c : M World A) (h : exn -> M World A) :
  quiet_only c -> (forall e, quiet_only (h e)) -> quiet_only (try_except c h).
Proof.
  intros Hc Hh st. unfold try_except. destruct (Hc st) as (e1 & H1 & Q1).
  destruct (c st) as [[a | e] st1]; simpl in *.
  - exists e1. auto.
  - destruct (Hh e st1) as (e2 & H2 & Q2). exists (e1 ++ e2)%list.
    rewrite H2, H1, List.app_assoc. split; [reflexivity | apply Forall_app; auto].
Qed.

Lemma quiet_if {A} (t : bool) (c1 c2 : M World A) :
  quiet_only c1 -> quiet_only c2 -> quiet_only (if t then c1 else c2).
Proof. destruct t; auto. Qed.

Lemma quiet_emit (ev : event) (st : state World) :
  Spec.quiet ev ->
  exists evs, trace (emit ev st) = (trace st ++ evs)%list /\ Forall Spec.quiet evs.
Proof. intros H. exists [ev]. split; [reflexivity | constructor; [exact H | constructor]]. Qed.

End Quiet.

Ltac quiet_tac :=
  repeat first
    [ apply quiet_ret | apply quiet_lift | apply quiet_print
    | apply quiet_if | apply quiet_try_except | apply quiet_bind | intro ].

End CallsFacts.

(** ** The chatbots: the other branches of the pipeline and the loop *)

Module MoreBotFacts.
Import WeatherBot.
Import Calls.

Section Facts.
Variable World : Type.
Variable llm_backend : llm_request -> World -> result string * World.
Variable weather_backend : http_request -> World -> result http_response * World.
Variable float_repr : float -> string.
Variable container_repr : json -> string.

#[local] Abbreviation is_weather_query := (is_weather_query World llm_backend).
#[local] Abbreviation extract_location_from_query := (extract_location_from_query World llm_backend).
#[local] Abbreviation get_weather_by_location := (get_weather_by_location World weather_backend).
#[local] Abbreviation generate_weather_response :=
  (generate_weather_response World llm_backend float_repr container_repr).
#[local] Abbreviation handle_user_query :=
  (handle_user_query World llm_backend weather_backend float_repr container_repr).
#[local] Abbreviation loop_body :=
  (loop_body World llm_backend weather_backend float_repr container_repr).
#[local] Abbreviation main_loop :=
  (main_loop World llm_backend weather_backend float_repr container_repr).

(** *** Extraction *)

Lemma extract_location_raise b q st e w :
  llm_backend (request b Extract q None) (world st) = (Raise e, w) ->
  extract_location_from_query b q st
  = (Ok None,
     mk_state w (trace st ++ [EvLLM (request b Extract q None);
                              EvPrint ("Error connecting to " ++ api_name b
                                       ++ " API: " ++ exn_msg e)])%list).
Proof.
  intros H.
  unfold WeatherBot.extract_location_from_query, try_except, bind, call_llm, ret, print, emit.
  rewrite H. simpl. rewrite <- List.app_assoc. reflexivity.
Qed.

Lemma handle_user_query_no_location b q st st1 st2 location :
  is_weather_query b q st = (Ok true, st1) ->
  extract_location_from_query b q st1 = (Ok location, st2) ->
  location = None \/ location = Some EmptyString ->
  handle_user_query b q st = (Ok clarification_message, st2).
Proof.
  intros Hc He Hl. unfold WeatherBot.handle_user_query, bind. rewrite Hc. simpl.
  rewrite He. destruct Hl as [-> | ->]; reflexivity.
Qed.

(** X1. After a verdict true, when the extractor returns no location
    ([None], or the empty string), [handle_user_query] returns the
    clarification message and stops there: its final state is the state
    after the extraction, so no weather lookup and no composition
    happens. *)
Theorem handle_user_query_asks_for_location b q st st1 st2 location :
  is_weather_query b q st = (Ok true, st1) ->
  extract_location_from_query b q st1 = (Ok location, st2) ->
  location = None \/ location = Some EmptyString ->
  handle_user_query b q st = (Ok clarification_message, st2).
Proof. apply handle_user_query_no_location. Qed.

(** X2. When the call of the extractor's backend raises, the extractor
    prints the error and returns [None] instead of raising, and the
    Orchestrator answers with the clarification message without any
    weather lookup. *)
Theorem extractor_failure_asks_for_location b q st st1 e w :
  is_weather_query b q st = (Ok true, st1) ->
  llm_backend (request b Extract q None) (world st1) = (Raise e, w) ->
  extract_location_from_query b q st1
  = (Ok None,
     mk_state w (trace st1 ++ [EvLLM (request b Extract q None);
                               EvPrint ("Error connecting to " ++ api_name b
                                        ++ " API: " ++ exn_msg e)])%list)
  /\ handle_user_query b q st
     = (Ok clarification_message,
        mk_state w (trace st1 ++ [EvLLM (request b Extract q None);
                                  EvPrint ("Error connecting to " ++ api_name b
                                           ++ " API: " ++ exn_msg e)])%list).
Proof.
  intros Hc H. pose proof (extract_location_raise b q st1 e w H) as He.
  split; [exact He |].
  eapply handle_user_query_no_location; [exact Hc | exact He | left; reflexivity].
Qed.

(** X3. The sentinel UNKNOWN, possibly surrounded by whitespace, is the
    absence value in the four scripts; written in another letter case it is
    the absence value in the OpenAI and Groq scripts only, and the Claude
    and Gemini scripts return the stripped reply as a location. *)
Theorem extract_sentinel_by_binding b q st ws1 t ws2 w :
  PyStr.all_space ws1 = true ->
  PyStr.all_space ws2 = true ->
  PyStr.caseless_eq t "UNKNOWN" = true ->
  llm_backend (request b Extract q None) (world st) = (Ok (ws1 ++ t ++ ws2), w) ->
  fst (extract_location_from_query b q st)
  = Ok (match b with
        | OpenAI | Groq => None
        | Claude | Gemini => if String.eqb t "UNKNOWN" then None else Some t
        end).
Proof.
  intros H1 H2 Ht H.
  rewrite (WeatherBotFacts.extract_location_reply _ _ _ _ _ _ _ H). simpl. f_equal.
  rewrite PyStrFacts.strip_padded; try assumption.
  - destruct b; simpl; try reflexivity;
      rewrite (PyStrFacts.caseless_eq_upper t "UNKNOWN" Ht eq_refl); reflexivity.
  - apply (PyStrFacts.caseless_eq_no_space t "UNKNOWN" Ht). reflexivity.
Qed.

Lemma strip_all_space (s : string) : PyStr.all_space s = true -> PyStr.strip s = EmptyString.
Proof.
  intros H. unfold PyStr.strip.
  replace (PyStr.lstrip s) with EmptyString; [reflexivity |].
  induction s as [| c s IH]; simpl in *; [reflexivity |].
  apply andb_true_iff in H. destruct H as [Hc Hs]. rewrite Hc. apply IH; assumption.
Qed.

(** X4. A reply of the extractor made of whitespace only (the empty reply
    included) is not the sentinel: the extractor returns the empty string,
    and the Orchestrator, for which the empty string is no location, answers
    with the clarification message without a weather lookup. *)
Theorem blank_extraction_asks_for_location b q st st1 reply w :
  PyStr.all_space reply = true ->
  is_weather_query b q st = (Ok true, st1) ->
  llm_backend (request b Extract q None) (world st1) = (Ok reply, w) ->
  fst (extract_location_from_query b q st1) = Ok (Some EmptyString)
  /\ handle_user_query b q st
     = (Ok clarification_message,
        mk_state w (trace st1 ++ [EvLLM (request b Extract q None)])%list).
Proof.
  intros Hs Hc H.
  pose proof (WeatherBotFacts.extract_location_reply _ _ _ _ _ _ _ H) as He.
  rewrite (strip_all_space reply Hs) in He.
  replace (is_unknown b EmptyString) with false in He by (destruct b; reflexivity).
  split; [rewrite He; reflexivity |].
  eapply handle_user_query_no_location; [exact Hc | exact He | right; reflexivity].
Qed.

End Facts.

End MoreBotFacts.

(** ** The chatbots: lookup, composition and the order of the calls *)

Module PipelineFacts.
Import WeatherBot.
Import Calls.

Section Facts.
Variable World : Type.
Variable llm_backend : llm_request -> World -> result string * World.
Variable weather_backend : http_request -> World -> result http_response * World.
Variable float_repr : float -> string.
Variable container_repr : json -> string.

#[local] Abbreviation is_weather_query := (is_weather_query World llm_backend).
#[local] Abbreviation extract_location_from_query := (extract_location_from_query World llm_backend).
#[local] Abbreviation get_weather_by_location := (get_weather_by_location World weather_backend).
#[local] Abbreviation generate_weather_response :=
  (generate_weather_response World llm_backend float_repr container_repr).
#[local] Abbreviation handle_user_query :=
  (handle_user_query World llm_backend weather_backend float_repr container_repr).

Lemma get_weather_by_location_found b location st resp w v :
  weather_backend (mk_http (ByName location) 10) (world st) = (Ok resp, w) ->
  status_code resp = 200%Z ->
  json_body resp = Ok v ->
  get_weather_by_location b location st
  = (Ok v, mk_state w (trace st ++ [EvHTTP (mk_http (ByName location) 10)])%list).
Proof.
  intros H Hs Hj.
  unfold WeatherBot.get_weather_by_location, try_except, bind, requests_get, lift.
  rewrite H, Hs, Hj. reflexivity.
Qed.

Lemma generate_weather_response_reply b q wd st r w
    location country temperature humidity cloud wind condition :
  Spec.has_fields wd (mk_ctx location country temperature humidity cloud wind condition) ->
  llm_backend
    (request b Compose q
       (Some (mk_ctx location country temperature humidity cloud wind condition)))
    (world st) = (Ok r, w) ->
  generate_weather_response b q wd st
  = (Ok (PyStr.strip r),
     mk_state w
       (trace st
        ++ [EvLLM (request b Compose q
                     (Some (mk_ctx location country temperature humidity cloud wind
                              condition)))])%list).
Proof.
  intros (loc & cur & cond & H1 & H2 & H3 & H4 & H5 & H6 & H7 & H8 & H9 & H10) H.
  simpl in *.
  unfold WeatherBot.generate_weather_response, try_except, bind, lift, call_llm, ret.
  rewrite H1, H2, H3, H4, H5, H6, H7, H8, H9, H10, H. reflexivity.
Qed.

(** X5. The whole pipeline on its success path: verdict true, a location,
    a response with status 200 whose body is a record with the seven
    fields, and a reply of the composer.  [handle_user_query] returns that
    reply, stripped, and after the extraction it made exactly one weather
    request, for the extracted location, followed by one composition
    request that carries the values of the record. *)
Theorem handle_user_query_success b q st st1 st2 location resp w3 wd ctx r w4 :
  is_weather_query b q st = (Ok true, st1) ->
  extract_location_from_query b q st1 = (Ok (Some location), st2) ->
  PyStr.truthy location = true ->
  weather_backend (mk_http (ByName location) 10) (world st2) = (Ok resp, w3) ->
  status_code resp = 200%Z ->
  json_body resp = Ok wd ->
  Json.truthy wd = true ->
  Spec.has_fields wd ctx ->
  llm_backend (request b Compose q (Some ctx)) w3 = (Ok r, w4) ->
  handle_user_query b q st
  = (Ok (PyStr.strip r),
     mk_state w4
       (trace st2 ++ [EvHTTP (mk_http (ByName location) 10);
                      EvLLM (request b Compose q (Some ctx))])%list).
Proof.
  intros Hc He Hl Hw Hs Hj Ht Hf Hr. unfold WeatherBot.handle_user_query, bind.
  rewrite Hc. simpl. rewrite He, Hl. simpl.
  rewrite (get_weather_by_location_found b location st2 resp w3 wd Hw Hs Hj), Ht. simpl.
  destruct ctx as [l c t h cl wi co].
  rewrite (generate_weather_response_reply b q wd
             (mk_state w3 (trace st2 ++ [EvHTTP (mk_http (ByName location) 10)])%list)
             r w4 l c t h cl wi co Hf Hr).
  simpl. rewrite <- List.app_assoc. reflexivity.
Qed.

Lemma generate_weather_response_no_location b q wd st e :
  Json.getitem wd "location" = Raise e ->
  generate_weather_response b q wd st = (Raise e, st).
Proof.
  intros H. unfold WeatherBot.generate_weather_response, bind, lift. rewrite H. reflexivity.
Qed.

(** X6. The Orchestrator can receive an exception: when the lookup returns
    a value that is truthy but cannot be subscripted with [location] (a
    JSON object without that key, a list, a number), [handle_user_query]
    raises the [KeyError] or [TypeError] of the failed subscription, right
    after the lookup and without any call of the composer. *)
Theorem handle_user_query_raises_on_malformed_record b q st st1 st2 location wd st3 e :
  is_weather_query b q st = (Ok true, st1) ->
  extract_location_from_query b q st1 = (Ok (Some location), st2) ->
  PyStr.truthy location = true ->
  get_weather_by_location b location st2 = (Ok wd, st3) ->
  Json.truthy wd = true ->
  Json.getitem wd "location" = Raise e ->
  handle_user_query b q st = (Raise e, st3)
  /\ (exn_cls e = KeyError \/ exn_cls e = TypeError).
Proof.
  intros Hc He Hl Hw Ht Hg. split.
  - unfold WeatherBot.handle_user_query, bind.
    rewrite Hc. simpl. rewrite He, Hl. simpl. rewrite Hw, Ht. simpl.
    apply generate_weather_response_no_location. exact Hg.
  - destruct wd as [| x | z | f | s | l | kvs]; simpl in Hg;
      try (injection Hg as <-; right; reflexivity).
    destruct (Json.lookup "location" kvs); [discriminate |].
    injection Hg as <-. left. reflexivity.
Qed.

(** X7. The fallback sentence itself can fail: with the composer's backend
    down and a cloud cover that is not a number ([null], a string, a list
    or an object), [cloud > 50] raises [TypeError] inside the handler and
    [generate_weather_response] raises it, after the backend call and the
    print of its error. *)
Theorem fallback_raises_on_non_numeric_cloud b q wd st e w
    location country temperature humidity cloud wind condition :
  Spec.has_fields wd (mk_ctx location country temperature humidity cloud wind condition) ->
  llm_backend
    (request b Compose q
       (Some (mk_ctx location country temperature humidity cloud wind condition)))
    (world st) = (Raise e, w) ->
  match cloud with
  | JNull | JStr _ | JList _ | JObj _ => True
  | _ => False
  end ->
  exists e',
    exn_cls e' = TypeError
    /\ generate_weather_response b q wd st
       = (Raise e',
          mk_state w
            (trace st
             ++ [EvLLM (request b Compose q
                          (Some (mk_ctx location country temperature humidity cloud wind
                                   condition)));
                 EvPrint ("Error connecting to " ++ api_name b ++ " API: "
                          ++ exn_msg e)])%list).
Proof.
  intros (loc & cur & cond & H1 & H2 & H3 & H4 & H5 & H6 & H7 & H8 & H9 & H10) H Hc.
  simpl in *.
  unfold WeatherBot.generate_weather_response, fallback_response,
    try_except, bind, lift, call_llm, print, ret, emit.
  rewrite H1, H2, H3, H4, H5, H6, H7, H8, H9, H10, H. simpl.
  destruct cloud; try contradiction; simpl;
    (eexists; split; [| rewrite <- List.app_assoc; reflexivity]; reflexivity).
Qed.

(** *** The calls of one query *)

Lemma is_weather_query_calls b q st :
  exists evs, trace (snd (is_weather_query b q st)) = (trace st ++ evs)%list
              /\ calls evs = [Classification].
Proof.
  destruct (llm_backend (request b Classify q None) (world st)) as [[r | e] w] eqn:H.
  - rewrite (WeatherBotFacts.is_weather_query_reply _ _ _ _ _ _ _ H).
    eexists. split; reflexivity.
  - rewrite (WeatherBotFacts.is_weather_query_raise _ _ _ _ _ _ _ H).
    eexists. split; reflexivity.
Qed.

Lemma extract_location_calls b q st :
  exists evs, trace (snd (extract_location_from_query b q st)) = (trace st ++ evs)%list
              /\ calls evs = [Extraction].
Proof.
  destruct (llm_backend (request b Extract q None) (world st)) as [[r | e] w] eqn:H.
  - rewrite (WeatherBotFacts.extract_location_reply _ _ _ _ _ _ _ H).
    eexists. split; reflexivity.
  - unfold WeatherBot.extract_location_from_query, try_except, bind, call_llm, ret, print, emit.
    rewrite H. simpl. rewrite <- List.app_assoc. eexists. split; reflexivity.
Qed.

Lemma get_weather_by_location_calls b location st :
  exists evs, trace (snd (get_weather_by_location b location st)) = (trace st ++ evs)%list
              /\ calls evs = [Lookup].
Proof.
  unfold WeatherBot.get_weather_by_location, try_except, bind, requests_get, print, ret, lift, emit.
  destruct (weather_backend _ _) as [[resp | e] w]; simpl.
  - destruct (Z.eqb (status_code resp) 200).
    + destruct (json_body resp); simpl.
      * eexists. split; reflexivity.
      * rewrite <- List.app_assoc. eexists. split; reflexivity.
    + destruct (Z.eqb (status_code resp) 400); simpl.
      * eexists. split; reflexivity.
      * destruct (prints_response_text b); simpl;
          rewrite <- !List.app_assoc; eexists; split; reflexivity.
  - rewrite <- List.app_assoc. eexists. split; reflexivity.
Qed.

Lemma generate_weather_response_calls b q wd st :
  exists evs, trace (snd (generate_weather_response b q wd st)) = (trace st ++ evs)%list
              /\ (calls evs = [] \/ calls evs = [Composition]).
Proof.
  unfold WeatherBot.generate_weather_response, fallback_response,
    try_except, bind, lift, call_llm, print, ret, emit.
  repeat match goal with
         | |- context [Json.getitem ?a ?k] =>
             destruct (Json.getitem a k);
             [| exists []; rewrite List.app_nil_r; split; [reflexivity | left; reflexivity]]
         end.
  destruct (llm_backend _ _) as [[r | e] w]; simpl.
  - eexists. split; [reflexivity | right; reflexivity].
  - destruct (Json.gt_50 _); simpl; rewrite <- List.app_assoc;
      eexists; (split; [reflexivity | right; reflexivity]).
Qed.

(** X8. The calls of one query follow the pipeline: the events
    [handle_user_query] adds to the trace contain one classification, then
    at most one extraction, then at most one weather lookup, then at most
    one composition, each only if the one before it was made. *)
Theorem handle_user_query_call_order b q st :
  exists evs,
    trace (snd (handle_user_query b q st)) = (trace st ++ evs)%list
    /\ (calls evs = [Classification]
        \/ calls evs = [Classification; Extraction]
        \/ calls evs = [Classification; Extraction; Lookup]
        \/ calls evs = [Classification; Extraction; Lookup; Composition]).
Proof.
  unfold WeatherBot.handle_user_query, bind.
  destruct (is_weather_query_calls b q st) as (e1 & T1 & C1).
  destruct (is_weather_query b q st) as [[verdict | x] st1]; simpl in T1;
    [| exists e1; split; [exact T1 | left; exact C1]].
  destruct verdict; simpl; [| exists e1; split; [exact T1 | left; exact C1]].
  destruct (extract_location_calls b q st1) as (e2 & T2 & C2).
  assert (T12 : forall st2 : state World, trace st2 = (trace st1 ++ e2)%list ->
                            trace st2 = (trace st ++ e1 ++ e2)%list)
    by (intros st2 E; rewrite E, T1, List.app_assoc; reflexivity).
  assert (C12 : calls (e1 ++ e2) = [Classification; Extraction])
    by (rewrite CallsFacts.calls_app, C1, C2; reflexivity).
  destruct (extract_location_from_query b q st1) as [[location | x] st2]; simpl in T2;
    [| exists (e1 ++ e2)%list; split; [apply T12; exact T2 | right; left; exact C12]].
  destruct location as [location |];
    [| exists (e1 ++ e2)%list; split; [apply T12; exact T2 | right; left; exact C12]].
  destruct (PyStr.truthy location); simpl;
    [| exists (e1 ++ e2)%list; split; [apply T12; exact T2 | right; left; exact C12]].
  destruct (get_weather_by_location_calls b location st2) as (e3 & T3 & C3).
  assert (T123 : forall st3 : state World, trace st3 = (trace st2 ++ e3)%list ->
                             trace st3 = (trace st ++ (e1 ++ e2) ++ e3)%list)
    by (intros st3 E; rewrite E, (T12 st2 T2), <- !List.app_assoc; reflexivity).
  assert (C123 : calls ((e1 ++ e2) ++ e3) = [Classification; Extraction; Lookup])
    by (rewrite CallsFacts.calls_app, C12, C3; reflexivity).
  destruct (get_weather_by_location b location st2) as [[wd | x] st3]; simpl in T3;
    [| exists ((e1 ++ e2) ++ e3)%list; split; [apply T123; exact T3 | right; right; left; exact C123]].
  destruct (Json.truthy wd); simpl;
    [| exists ((e1 ++ e2) ++ e3)%list; split; [apply T123; exact T3 | right; right; left; exact C123]].
  destruct (generate_weather_response_calls b q wd st3) as (e4 & T4 & C4).
  exists (((e1 ++ e2) ++ e3) ++ e4)%list. split.
  - rewrite T4, (T123 st3 T3), <- !List.app_assoc. reflexivity.
  - rewrite CallsFacts.calls_app, C123. destruct C4 as [-> | ->]; auto.
Qed.

End Facts.

End PipelineFacts.

(** ** The chatbots: the interactive loop and the start-up checks *)

Module LoopFacts.
Import WeatherBot.

Section Facts.
Variable World : Type.
Variable llm_backend : llm_request -> World -> result string * World.
Variable weather_backend : http_request -> World -> result http_response * World.
Variable float_repr : float -> string.
Variable container_repr : json -> string.

#[local] Abbreviation handle_user_query :=
  (handle_user_query World llm_backend weather_backend float_repr container_repr).
#[local] Abbreviation loop_body :=
  (loop_body World llm_backend weather_backend float_repr container_repr).
#[local] Abbreviation main_loop :=
  (main_loop World llm_backend weather_backend float_repr container_repr).


(** X10. An exit keyword typed in any letter case ends the conversation:
    the turn prints the farewell and makes no call to any backend. *)
Theorem exit_keyword_any_case_breaks b st k kw :
  In kw exit_keywords ->
  PyStr.caseless_eq k kw = true ->
  loop_body b (Some (Line k)) st
  = (Break, emit (EvPrint "Goodbye! Have a great day!") (emit (EvInput "Ask?: ") st)).
Proof.
  intros Hkw Hk. unfold WeatherBot.loop_body.
  rewrite (PyStrFacts.caseless_eq_lower k kw Hk (WeatherBotFacts.exit_keywords_lower kw Hkw)).
  replace (PyStr.mem kw exit_keywords) with true; [reflexivity |].
  symmetry. apply PyStrFacts.mem_In. exact Hkw.
Qed.

(** X11. A line that is empty or made of whitespace only is not sent to
    the pipeline: the turn prints the request for a question, makes no call
    to any backend, and the loop goes on with the next line. *)
Theorem blank_line_reprompts b st line :
  PyStr.all_space line = true ->
  loop_body b (Some (Line line)) st
  = (Continue,
     emit (EvPrint "Please ask a question about the weather.") (emit (EvInput "Ask?: ") st))
  /\ forall n rest,
       main_loop b (S n) (Line line :: rest) st
       = main_loop b n rest
           (emit (EvPrint "Please ask a question about the weather.")
              (emit (EvInput "Ask?: ") st)).
Proof.
  intros Hs.
  assert (Hb : loop_body b (Some (Line line)) st
               = (Continue,
                  emit (EvPrint "Please ask a question about the weather.")
                    (emit (EvInput "Ask?: ") st))).
  { unfold WeatherBot.loop_body. rewrite (PyStrFacts.lower_spaces line Hs).
    replace (PyStr.mem line exit_keywords) with false.
    - rewrite (MoreBotFacts.strip_all_space line Hs). reflexivity.
    - symmetry. destruct (PyStr.mem line exit_keywords) eqn:Hm; [| reflexivity].
      apply PyStrFacts.mem_In in Hm.
      destruct Hm as [<- | [<- | [<- | [<- | []]]]]; discriminate Hs. }
  split; [exact Hb |].
  intros n rest. cbn [WeatherBot.main_loop hd_error tl]. rewrite Hb. reflexivity.
Qed.

(** X12. Once the input is at its end the loop never leaves: every turn
    catches the [EOFError] of [input()], prints the two lines of the error
    handler and starts over, so after any number of turns the loop is still
    running and the trace has grown by three events per turn. *)
Theorem main_loop_spins_at_end_of_input b n st :
  fst (main_loop b n [] st) = Running
  /\ List.length (trace (snd (main_loop b n [] st))) = List.length (trace st) + 3 * n.
Proof.
  revert st. induction n as [| n IH]; intros st.
  - simpl. split; [reflexivity | lia].
  - cbn [WeatherBot.main_loop hd_error tl WeatherBot.loop_body].
    destruct (IH (emit (EvPrint "Please try again with a different question.")
                    (emit (EvPrint "An error occurred: EOF when reading a line")
                       (emit (EvInput "Ask?: ") st)))) as [H1 H2].
    split; [exact H1 |]. rewrite H2. simpl. rewrite !List.length_app. simpl. lia.
Qed.

(** *** Start-up *)

Variable WEATHER_API_KEY : option string.
Variable LLM_API_KEY : option string.

#[local] Abbreviation script :=
  (BotScript.script World llm_backend weather_backend float_repr container_repr
     WEATHER_API_KEY LLM_API_KEY).

(** X13. A chatbot script whose weather key or language-model key is unset
    or empty prints one fixed message and exits with code 1 before the
    banner, any prompt and any backend call; the weather key is checked
    first, so with both keys missing the message is the one of the weather
    key. *)
Theorem script_exits_without_keys b turns stdin st :
  BotScript.key_missing WEATHER_API_KEY = true \/ BotScript.key_missing LLM_API_KEY = true ->
  script b turns stdin st
  = (BotScript.StartupExit 1,
     emit (EvPrint
             (if BotScript.key_missing WEATHER_API_KEY
              then "Error: WeatherAPI key not found. Please add WEATHER_API_KEY to your .env file."
              else "Error: " ++ api_name b ++ " API key not found. Please add "
                   ++ BotScript.llm_key_variable b ++ " to your .env file.")) st).
Proof.
  intros H. unfold BotScript.script, BotScript.startup.
  destruct (BotScript.key_missing WEATHER_API_KEY); [reflexivity |].
  destruct H as [H | H]; [discriminate |]. rewrite H. reflexivity.
Qed.

End Facts.

End LoopFacts.

(** ** The coordinate script: accepted values, prompts and the run of [main] *)

Module FloatFacts.

Lemma SFcompare_antisym (x y : SpecFloat.spec_float) :
  SFcompare y x = option_map CompOpp (SFcompare x y).
Proof.
  destruct x as [s | s | | s m e], y as [s' | s' | | s' m' e'];
    try destruct s; try destruct s'; try reflexivity; unfold SFcompare, option_map; f_equal.
  - rewrite (Z.compare_antisym e' e). destruct (Z.compare e' e); try reflexivity.
    cbn [CompOpp]. rewrite (Pos.compare_cont_antisym m m' Eq). reflexivity.
  - rewrite (Z.compare_antisym e' e). destruct (Z.compare e' e); try reflexivity.
    cbn [CompOpp]. rewrite (Pos.compare_cont_antisym m m' Eq). reflexivity.
Qed.

(** On binary64 numbers [a <= b] excludes [b < a]. *)
Lemma leb_not_gtb (a b : float) :
  PrimFloat.leb a b = true -> PrimFloat.ltb b a = false.
Proof.
  rewrite leb_spec, ltb_spec. unfold SFleb, SFltb.
  rewrite (SFcompare_antisym (Prim2SF a) (Prim2SF b)).
  destruct (SFcompare (Prim2SF a) (Prim2SF b)) as [[| |] |]; simpl; congruence.
Qed.

End FloatFacts.

Module MoreWeatherFacts.
Import Weather.
Import Calls.

Section Facts.
Variable World : Type.
Variable weather_backend : http_request -> World -> result http_response * World.
Variable py_float : string -> option float.
Variable API_KEY : option string.
Variable float_repr : float -> string.
Variable container_repr : json -> string.

#[local] Abbreviation validate_body := (validate_body py_float).
#[local] Abbreviation validate_coordinates := (validate_coordinates py_float).
#[local] Abbreviation get_weather := (get_weather World weather_backend API_KEY).
#[local] Abbreviation display_weather := (display_weather World float_repr container_repr).
#[local] Abbreviation ask_coordinate := (ask_coordinate World py_float).
#[local] Abbreviation main :=
  (main World weather_backend py_float API_KEY float_repr container_repr).

(** *** [validate_coordinates] *)

(** X14. A latitude from -90 to 90 and a longitude from -180 to 180, the
    bounds included, pass [validate_coordinates], which returns the parsed
    number itself. *)
Theorem validate_coordinates_accepts_closed_range value x :
  py_float value = Some x ->
  (PrimFloat.leb (-90)%float x = true -> PrimFloat.leb x 90%float = true ->
   validate_coordinates value "latitude" = Ok x)
  /\ (PrimFloat.leb (-180)%float x = true -> PrimFloat.leb x 180%float = true ->
      validate_coordinates value "longitude" = Ok x).
Proof.
  intros Hp. unfold Weather.validate_coordinates, Weather.validate_body. rewrite Hp.
  split; intros Hlo Hhi;
    rewrite (FloatFacts.leb_not_gtb _ _ Hlo), (FloatFacts.leb_not_gtb _ _ Hhi); reflexivity.
Qed.

Lemma validate_body_raises_ValueError value coord_type e :
  validate_body value coord_type = Raise e -> exn_cls e = ValueError.
Proof.
  unfold Weather.validate_body.
  destruct (py_float value) as [c |]; [| intros [= <-]; reflexivity].
  repeat match goal with |- context [if ?t then _ else _] => destruct t end;
    try discriminate; intros [= <-]; reflexivity.
Qed.

Lemma validate_coordinates_raises_format value coord_type e :
  validate_coordinates value coord_type = Raise e ->
  e = mk_exn ValueError ("Invalid " ++ coord_type ++ " format. Please enter a number.").
Proof.
  unfold Weather.validate_coordinates.
  destruct (validate_body value coord_type) as [c | e'] eqn:Hb; [discriminate |].
  rewrite (validate_body_raises_ValueError value coord_type e' Hb).
  intros [= <-]. reflexivity.
Qed.

(** X15. Whatever the input and the coordinate type, the only exception
    [validate_coordinates] lets out is the [ValueError] with the format
    message: text that is not a number and numbers out of range are
    reported alike, and neither range message ever reaches the caller. *)
Theorem validate_coordinates_only_format_message value coord_type e :
  validate_coordinates value coord_type = Raise e ->
  e = mk_exn ValueError ("Invalid " ++ coord_type ++ " format. Please enter a number.").
Proof. apply validate_coordinates_raises_format. Qed.

(** *** The prompt loop *)

Lemma ask_coordinate_accepts prompt coord_type value c rest st :
  validate_coordinates value coord_type = Ok c ->
  ask_coordinate prompt coord_type (Line value :: rest) st
  = (Got c, rest, emit (EvInput prompt) st).
Proof. intros H. cbn [Weather.ask_coordinate]. rewrite H. reflexivity. Qed.

Lemma ask_coordinate_rejects prompt coord_type value e rest st :
  validate_coordinates value coord_type = Raise e ->
  ask_coordinate prompt coord_type (Line value :: rest) st
  = ask_coordinate prompt coord_type rest
      (emit (EvPrint ("Error: Invalid " ++ coord_type ++ " format. Please enter a number."))
         (emit (EvInput prompt) st)).
Proof.
  intros H. cbn [Weather.ask_coordinate]. rewrite H.
  rewrite (validate_coordinates_raises_format value coord_type e H). reflexivity.
Qed.

(** X16. The prompt loop skips what [validate_coordinates] refuses: after
    any number of refused lines, each answered by the same error line and a
    new prompt, the first accepted line gives the coordinate, and the lines
    after it are left for the next prompt. *)
Theorem ask_coordinate_skips_refused prompt coord_type bad value c rest st :
  Forall (fun s => exists e, validate_coordinates s coord_type = Raise e) bad ->
  validate_coordinates value coord_type = Ok c ->
  ask_coordinate prompt coord_type (map Line bad ++ Line value :: rest)%list st
  = (Got c, rest,
     mk_state (world st)
       (trace st
        ++ flat_map
             (fun _ =>
                [EvInput prompt;
                 EvPrint ("Error: Invalid " ++ coord_type
                          ++ " format. Please enter a number.")]) bad
        ++ [EvInput prompt])%list).
Proof.
  intros Hbad Hok. revert st. induction Hbad as [| s bad [e He] _ IH]; intros st.
  - cbn [map List.app]. rewrite (ask_coordinate_accepts prompt coord_type value c rest st Hok).
    reflexivity.
  - cbn [map List.app]. rewrite (ask_coordinate_rejects prompt coord_type s e _ st He).
    rewrite IH. cbn [flat_map emit trace world]. rewrite <- !List.app_assoc. reflexivity.
Qed.

(** *** The requests of a run *)

Lemma http_count_emit_quiet ev (st : state World) :
  Spec.quiet ev -> http_count (trace (emit ev st)) = http_count (trace st).
Proof.
  intros H. cbn [emit trace]. rewrite CallsFacts.http_count_app.
  destruct ev; simpl in *; first [lia | contradiction].
Qed.

Lemma http_count_quiet_only {A} (c : M World A) st :
  quiet_only c -> http_count (trace (snd (c st))) = http_count (trace st).
Proof.
  intros H. destruct (H st) as (evs & -> & Hq).
  rewrite CallsFacts.http_count_app, (CallsFacts.http_count_quiet evs Hq). lia.
Qed.

Lemma ask_coordinate_http_count prompt coord_type stdin st :
  http_count (trace (snd (ask_coordinate prompt coord_type stdin st)))
  = http_count (trace st).
Proof.
  revert st. induction stdin as [| [value |] rest IH]; intros st; cbn [Weather.ask_coordinate].
  - simpl snd. apply (http_count_emit_quiet (EvInput prompt)). exact I.
  - destruct (validate_coordinates value coord_type) as [c | e] eqn:Hv.
    + simpl snd. apply (http_count_emit_quiet (EvInput prompt)). exact I.
    + rewrite (WeatherFacts.validate_coordinates_raises_ValueError _ _ _ _ Hv).
      rewrite IH. rewrite (http_count_emit_quiet (EvPrint _)) by exact I.
      apply (http_count_emit_quiet (EvInput prompt)). exact I.
  - simpl snd. apply (http_count_emit_quiet (EvInput prompt)). exact I.
Qed.

Lemma display_weather_quiet wd : quiet_only (display_weather wd).
Proof. unfold Weather.display_weather, print_field. CallsFacts.quiet_tac. Qed.

(** One request under a [try] whose continuation and handler only print. *)
Lemma http_count_guarded_request {A} rq (k : http_response -> M World A)
    (h : exn -> M World A) st :
  (forall resp, quiet_only (k resp)) ->
  (forall e, quiet_only (h e)) ->
  http_count
    (trace (snd (try_except (bind (Weather.requests_get World weather_backend rq) k) h st)))
  = http_count (trace st) + 1.
Proof.
  intros Hk Hh. unfold try_except, bind, Weather.requests_get.
  destruct (weather_backend rq (world st)) as [[resp | e] w].
  - set (st1 := mk_state w (trace st ++ [EvHTTP rq])%list).
    assert (H1 : http_count (trace st1) = http_count (trace st) + 1)
      by (subst st1; cbn [trace]; rewrite CallsFacts.http_count_app; reflexivity).
    destruct (Hk resp st1) as (evs & Ht & Hq).
    destruct (k resp st1) as [[v | e] st2]; cbn [snd] in *.
    + rewrite Ht, CallsFacts.http_count_app, (CallsFacts.http_count_quiet evs Hq). lia.
    + destruct (Hh e st2) as (evs2 & Ht2 & Hq2).
      rewrite Ht2, Ht, !CallsFacts.http_count_app,
        (CallsFacts.http_count_quiet evs Hq), (CallsFacts.http_count_quiet evs2 Hq2).
      lia.
  - set (st1 := mk_state w (trace st ++ [EvHTTP rq])%list).
    assert (H1 : http_count (trace st1) = http_count (trace st) + 1)
      by (subst st1; cbn [trace]; rewrite CallsFacts.http_count_app; reflexivity).
    destruct (Hh e st1) as (evs2 & Ht2 & Hq2).
    rewrite Ht2, CallsFacts.http_count_app, (CallsFacts.http_count_quiet evs2 Hq2). lia.
Qed.

Lemma get_weather_http_count latitude longitude st :
  http_count (trace (snd (get_weather latitude longitude st)))
  = http_count (trace st) + (if api_key_present API_KEY then 1 else 0).
Proof.
  unfold Weather.get_weather. destruct (api_key_present API_KEY); cbn [negb].
  - apply http_count_guarded_request.
    + intros resp. CallsFacts.quiet_tac.
    + intros e. destruct (exn_cls e); CallsFacts.quiet_tac.
  - unfold bind, print, ret. cbn [snd]. rewrite (http_count_emit_quiet (EvPrint _)) by exact I.
    lia.
Qed.


(** *** A run with two accepted lines *)

Lemma main_two_accepted v1 v2 rest c1 c2 st :
  validate_coordinates v1 "latitude" = Ok c1 ->
  validate_coordinates v2 "longitude" = Ok c2 ->
  main (Line v1 :: Line v2 :: rest) st
  = let st2 :=
      mk_state (world st)
        (trace st ++ [EvPrint "Weather Information Program";
                      EvPrint "==========================";
                      EvInput "Latitude?: "; EvInput "Longitude?: "])%list in
    match get_weather c1 c2 st2 with
    | (Raise e, st3) => unexpected_error World e st3
    | (Ok weather_data, st3) =>
        if Json.truthy weather_data then
          match display_weather weather_data st3 with
          | (Ok _, st4) => (Finished, st4)
          | (Raise e, st4) => unexpected_error World e st4
          end
        else
          (Finished,
           emit (EvPrint "Failed to retrieve weather information. Please try again later.")
             st3)
    end.
Proof.
  intros H1 H2. unfold Weather.main.
  rewrite (ask_coordinate_accepts _ _ v1 c1 _ _ H1).
  rewrite (ask_coordinate_accepts _ _ v2 c2 _ _ H2).
  assert (E : emit (EvInput "Longitude?: ")
                (emit (EvInput "Latitude?: ")
                   (emit (EvPrint "==========================")
                      (emit (EvPrint "Weather Information Program") st)))
              = mk_state (world st)
                  (trace st ++ [EvPrint "Weather Information Program";
                                EvPrint "==========================";
                                EvInput "Latitude?: "; EvInput "Longitude?: "])%list)
    by (unfold emit; cbn [trace world]; rewrite <- !List.app_assoc; reflexivity).
  rewrite E. reflexivity.
Qed.

(** The same, as the shape of the trace. *)
Lemma guarded_request_trace {A} rq (k : http_response -> M World A)
    (h : exn -> M World A) st :
  (forall resp, quiet_only (k resp)) ->
  (forall e, quiet_only (h e)) ->
  exists more,
    trace (snd (try_except (bind (Weather.requests_get World weather_backend rq) k) h st))
    = (trace st ++ EvHTTP rq :: more)%list
    /\ Forall Spec.quiet more.
Proof.
  intros Hk Hh. unfold try_except, bind, Weather.requests_get.
  destruct (weather_backend rq (world st)) as [[resp | e] w].
  - set (st1 := mk_state w (trace st ++ [EvHTTP rq])%list).
    destruct (Hk resp st1) as (evs & Ht & Hq).
    destruct (k resp st1) as [[v | e] st2]; cbn [snd] in *.
    + exists evs. rewrite Ht. subst st1. cbn [trace]. rewrite <- List.app_assoc.
      split; [reflexivity | exact Hq].
    + destruct (Hh e st2) as (evs2 & Ht2 & Hq2).
      exists (evs ++ evs2)%list. rewrite Ht2, Ht. subst st1. cbn [trace].
      rewrite <- !List.app_assoc. split; [reflexivity | apply Forall_app; auto].
  - set (st1 := mk_state w (trace st ++ [EvHTTP rq])%list).
    destruct (Hh e st1) as (evs2 & Ht2 & Hq2).
    exists evs2. rewrite Ht2. subst st1. cbn [trace]. rewrite <- List.app_assoc.
    split; [reflexivity | exact Hq2].
Qed.

Lemma get_weather_request c1 c2 st :
  api_key_present API_KEY = true ->
  exists more,
    trace (snd (get_weather c1 c2 st))
    = (trace st ++ EvHTTP (mk_http (ByCoords c1 c2) 10) :: more)%list
    /\ Forall Spec.quiet more.
Proof.
  intros Hk. unfold Weather.get_weather. rewrite Hk. cbn [negb].
  apply guarded_request_trace.
  - intros resp. CallsFacts.quiet_tac.
  - intros e. destruct (exn_cls e); CallsFacts.quiet_tac.
Qed.

Lemma main_extends_get_weather v1 v2 rest c1 c2 st :
  validate_coordinates v1 "latitude" = Ok c1 ->
  validate_coordinates v2 "longitude" = Ok c2 ->
  exists more,
    trace (snd (main (Line v1 :: Line v2 :: rest) st))
    = (trace
         (snd (get_weather c1 c2
                 (mk_state (world st)
                    (trace st ++ [EvPrint "Weather Information Program";
                                  EvPrint "==========================";
                                  EvInput "Latitude?: "; EvInput "Longitude?: "])%list)))
       ++ more)%list
    /\ Forall Spec.quiet more.
Proof.
  intros H1 H2. rewrite (main_two_accepted v1 v2 rest c1 c2 st H1 H2). cbv zeta.
  unfold unexpected_error.
  destruct (get_weather c1 c2 _) as [[wd | e] st3]; cbn [snd].
  - destruct (Json.truthy wd).
    + destruct (display_weather_quiet wd st3) as (evs & Ht & Hf).
      destruct (display_weather wd st3) as [[u | e] st4]; cbn [snd] in *.
      * exists evs. auto.
      * exists (evs ++ [EvPrint ("An unexpected error occurred: " ++ exn_msg e)])%list.
        cbn [snd emit trace]. rewrite Ht, <- List.app_assoc. split; [reflexivity |].
        apply Forall_app. split; [exact Hf | constructor; [exact I | constructor]].
    + eexists. cbn [snd emit trace]. split; [reflexivity |].
      constructor; [exact I | constructor].
  - eexists. cbn [emit trace]. split; [reflexivity |].
    constructor; [exact I | constructor].
Qed.

(** X18. What [main] sends is what was validated: with an API key, after a
    latitude line and a longitude line that [validate_coordinates] accepts,
    the next action of the run is one request that carries exactly the two
    returned numbers, with the timeout of 10 seconds, and everything after
    it is printing. *)
Theorem main_requests_validated_coordinates v1 v2 rest c1 c2 st :
  api_key_present API_KEY = true ->
  validate_coordinates v1 "latitude" = Ok c1 ->
  validate_coordinates v2 "longitude" = Ok c2 ->
  exists more,
    trace (snd (main (Line v1 :: Line v2 :: rest) st))
    = (trace st
       ++ [EvPrint "Weather Information Program";
           EvPrint "==========================";
           EvInput "Latitude?: "; EvInput "Longitude?: ";
           EvHTTP (mk_http (ByCoords c1 c2) 10)]
       ++ more)%list
    /\ Forall Spec.quiet more.
Proof.
  intros Hk H1 H2.
  destruct (main_extends_get_weather v1 v2 rest c1 c2 st H1 H2) as (m2 & Hm & Hq2).
  destruct (get_weather_request c1 c2
              (mk_state (world st)
                 (trace st ++ [EvPrint "Weather Information Program";
                               EvPrint "==========================";
                               EvInput "Latitude?: "; EvInput "Longitude?: "])%list) Hk)
    as (m1 & Hg & Hq1).
  exists (m1 ++ m2)%list. rewrite Hm, Hg. cbn [trace].
  rewrite <- !List.app_assoc. split; [reflexivity | apply Forall_app; auto].
Qed.

(** X19. Not-a-number passes the validation: a line that [float] reads as
    NaN is accepted as a latitude (neither [nan < -90] nor [nan > 90]
    holds), and [main] sends the request with NaN as the latitude. *)
Theorem main_requests_nan_latitude v1 v2 rest lon st :
  api_key_present API_KEY = true ->
  py_float v1 = Some PrimFloat.nan ->
  validate_coordinates v2 "longitude" = Ok lon ->
  validate_coordinates v1 "latitude" = Ok PrimFloat.nan
  /\ In (EvHTTP (mk_http (ByCoords PrimFloat.nan lon) 10))
       (trace (snd (main (Line v1 :: Line v2 :: rest) st))).
Proof.
  intros Hk Hp H2.
  assert (H1 : validate_coordinates v1 "latitude" = Ok PrimFloat.nan).
  { unfold Weather.validate_coordinates, Weather.validate_body. rewrite Hp.
    replace (PrimFloat.ltb nan (-90)%float || PrimFloat.ltb 90%float nan) with false
      by (vm_compute; reflexivity).
    reflexivity. }
  split; [exact H1 |].
  destruct (main_extends_get_weather v1 v2 rest _ lon st H1 H2) as (m2 & Hm & _).
  destruct (get_weather_request PrimFloat.nan lon
              (mk_state (world st)
                 (trace st ++ [EvPrint "Weather Information Program";
                               EvPrint "==========================";
                               EvInput "Latitude?: "; EvInput "Longitude?: "])%list) Hk)
    as (m1 & Hg & _).
  rewrite Hm, Hg. apply in_or_app. left. apply in_or_app. right. left. reflexivity.
Qed.

(** X20. A lookup that fails ends the run politely: with an API key and two
    accepted lines, when the provider answers with a status other than 200
    or the transport raises, [get_weather] returns [None], and [main]
    prints that the information could not be retrieved and ends without
    [sys.exit]. *)
Theorem main_reports_failed_lookup v1 v2 rest c1 c2 st out w :
  api_key_present API_KEY = true ->
  validate_coordinates v1 "latitude" = Ok c1 ->
  validate_coordinates v2 "longitude" = Ok c2 ->
  weather_backend (mk_http (ByCoords c1 c2) 10) (world st) = (out, w) ->
  Spec.lookup_failed out ->
  fst (main (Line v1 :: Line v2 :: rest) st) = Finished
  /\ exists log,
       trace (snd (main (Line v1 :: Line v2 :: rest) st))
       = (log ++ [EvPrint "Failed to retrieve weather information. Please try again later."])%list.
Proof.
  intros Hk H1 H2 Hb Hf.
  rewrite (main_two_accepted v1 v2 rest c1 c2 st H1 H2). cbv zeta.
  unfold Weather.get_weather. rewrite Hk. cbn [negb].
  unfold try_except, bind, Weather.requests_get. cbn [world]. rewrite Hb.
  destruct out as [resp | e]; simpl in Hf.
  - destruct (Z.eqb_spec (status_code resp) 200) as [E | _]; [contradiction |].
    unfold print, ret. cbn [fst snd Json.truthy]. split; [reflexivity |].
    eexists. cbn [emit trace]. reflexivity.
  - destruct (exn_cls e); unfold print, ret; cbn [fst snd Json.truthy];
      (split; [reflexivity | eexists; cbn [emit trace]; reflexivity]).
Qed.

Lemma string_app_nil_r (s : string) : s ++ EmptyString = s.
Proof. induction s as [| c s IH]; simpl; [reflexivity | rewrite IH; reflexivity]. Qed.

(** X21. A record with the fields the script shows: for a JSON object
    whose [current] has temp_c, humidity, cloud, wind_kph, condition.text,
    feelslike_c and uv, and whose [location] has name, region, country and
    localtime, [display_weather] makes its ten prints, in this order and
    with these labels and units, and returns normally. *)
Theorem display_weather_prints_record kvs current location condition
    temp_c humidity cloud wind_kph cond_text feelslike_c uv name region country localtime st :
  Json.lookup "current" kvs = Some current ->
  Json.lookup "location" kvs = Some location ->
  Json.getitem current "temp_c" = Ok temp_c ->
  Json.getitem current "humidity" = Ok humidity ->
  Json.getitem current "cloud" = Ok cloud ->
  Json.getitem current "wind_kph" = Ok wind_kph ->
  Json.getitem current "condition" = Ok condition ->
  Json.getitem condition "text" = Ok cond_text ->
  Json.getitem current "feelslike_c" = Ok feelslike_c ->
  Json.getitem current "uv" = Ok uv ->
  Json.getitem location "name" = Ok name ->
  Json.getitem location "region" = Ok region ->
  Json.getitem location "country" = Ok country ->
  Json.getitem location "localtime" = Ok localtime ->
  let str := py_str float_repr container_repr in
  display_weather (JObj kvs) st
  = (Ok tt,
     mk_state (world st)
       (trace st
        ++ [EvPrint (String (ascii_of_nat 10) "The current weather for this location is:");
            EvPrint ("- temperature(C): " ++ str temp_c);
            EvPrint ("- humidity: " ++ str humidity ++ "%");
            EvPrint ("- cloud: " ++ str cloud ++ "%");
            EvPrint ("- wind: " ++ str wind_kph ++ "km/h");
            EvPrint ("- condition: " ++ str cond_text);
            EvPrint ("- feels like: " ++ str feelslike_c ++ degrees_C);
            EvPrint ("- UV index: " ++ str uv);
            EvPrint (String (ascii_of_nat 10) "Location: " ++ str name ++ ", " ++ str region
                     ++ ", " ++ str country);
            EvPrint ("Local time: " ++ str localtime)])%list).
Proof.
  intros Hc Hl H1 H2 H3 H4 H5 H6 H7 H8 H9 H10 H11 H12 str.
  assert (Hne : Json.truthy (JObj kvs) = true)
    by (destruct kvs; [discriminate Hc | reflexivity]).
  unfold Weather.display_weather, print_field, bind, lift, print, ret, emit.
  rewrite Hne. cbn [negb Weather.py_in Json.getitem]. rewrite Hc, Hl. cbn [negb fst snd].
  rewrite H1. cbn [trace world]. rewrite H2. cbn [trace world]. rewrite H3. cbn [trace world].
  rewrite H4. cbn [trace world]. rewrite H5, H6. cbn [trace world].
  rewrite H7. cbn [trace world]. rewrite H8. cbn [trace world].
  rewrite H9, H10, H11. cbn [trace world]. rewrite H12. cbn [trace world].
  subst str. rewrite <- !List.app_assoc. cbn [List.app].
  rewrite !string_app_nil_r. reflexivity.
Qed.

End Facts.

End MoreWeatherFacts.

(** ** The location script: [ex02/weather_geoloc.py] *)

Module GeolocFacts.
Import Calls.

Section Facts.
Variable World : Type.
Variable weather_backend : http_request -> World -> result http_response * World.
Variable API_KEY : option string.
Variable float_repr : float -> string.
Variable container_repr : json -> string.

#[local] Abbreviation get_weather_by_location :=
  (WeatherGeoloc.get_weather_by_location World weather_backend API_KEY).
#[local] Abbreviation header_name :=
  (WeatherGeoloc.header_name World float_repr container_repr).
#[local] Abbreviation display_weather :=
  (WeatherGeoloc.display_weather World float_repr container_repr).
#[local] Abbreviation main :=
  (WeatherGeoloc.main World weather_backend API_KEY float_repr container_repr).

(** X22. A location that is empty or made of whitespace only is refused
    before any lookup: [main] prints that the location cannot be empty and
    exits with code 1; the [sys.exit] inside the [try] is not caught by the
    handler of unexpected errors, whose message is not printed. *)
Theorem blank_location_exits location rest st :
  PyStr.all_space location = true ->
  main (Line location :: rest) st
  = (Weather.SysExit 1,
     mk_state (world st)
       (trace st ++ [EvPrint "Weather Information Program with Geolocation";
                     EvPrint "===========================================";
                     EvInput "Location?: ";
                     EvPrint "Error: Location cannot be empty."])%list).
Proof.
  intros H. unfold WeatherGeoloc.main.
  rewrite (MoreBotFacts.strip_all_space location H).
  cbn [PyStr.truthy negb]. unfold emit. cbn [trace world].
  rewrite <- !List.app_assoc. reflexivity.
Qed.

(** X23. With an API key, a lookup by name that does not succeed gives
    [None] and never an exception.  For the status 400 the script prints
    that the location could not be found, naming it; for another status it
    prints the status and the body; for a failure of the transport it
    prints the exception, as a connection failure when it is a
    [RequestException] and as an unexpected error otherwise. *)
Theorem geoloc_failed_lookup_is_absence location st out w :
  Weather.api_key_present API_KEY = true ->
  weather_backend (mk_http (ByName location) 10) (world st) = (out, w) ->
  Spec.lookup_failed out ->
  get_weather_by_location location st
  = (Ok JNull,
     mk_state w
       (trace st
        ++ EvHTTP (mk_http (ByName location) 10)
           :: match out with
              | Ok resp =>
                  if Z.eqb (status_code resp) 400
                  then [EvPrint ("Error: Could not find location '" ++ location ++ "'")]
                  else [EvPrint ("Error: API request failed with status code "
                                 ++ PyStr.str_of_int (status_code resp));
                        EvPrint ("Response: " ++ text resp)]
              | Raise e =>
                  match exn_cls e with
                  | RequestException =>
                      [EvPrint ("Error: Failed to connect to the weather API: "
                                ++ exn_msg e)]
                  | _ => [EvPrint ("Error: An unexpected error occurred: " ++ exn_msg e)]
                  end
              end)%list).
Proof.
  intros Hk H Hf. unfold WeatherGeoloc.get_weather_by_location. rewrite Hk. cbn [negb].
  unfold try_except, bind, Weather.requests_get, print, ret, emit. rewrite H.
  destruct out as [resp | e]; simpl in Hf.
  - destruct (Z.eqb_spec (status_code resp) 200) as [E | _]; [contradiction |].
    destruct (Z.eqb (status_code resp) 400); cbn [fst snd trace world];
      rewrite <- !List.app_assoc; reflexivity.
  - destruct (exn_cls e); cbn [fst snd trace world]; rewrite <- !List.app_assoc; reflexivity.
Qed.

(** X24. The name shown in the header: for a location whose name is a
    string and whose region is a string or is absent, the header shows the
    name alone when the region is absent, empty or equal to the name, and
    the name, a comma and the region otherwise. *)
Theorem header_name_adds_distinct_region kvs name region st :
  Json.lookup "name" kvs = Some (JStr name) ->
  Json.lookup "region" kvs = option_map JStr region ->
  header_name (JObj kvs) st
  = (Ok (JStr match region with
              | Some r =>
                  if String.eqb r EmptyString || String.eqb r name then name
                  else name ++ ", " ++ r
              | None => name
              end), st).
Proof.
  intros Hn Hr. unfold WeatherGeoloc.header_name, bind, lift, ret.
  cbn [Json.getitem JsonOps.get]. rewrite Hn, Hr.
  destruct region as [r |]; cbn [option_map]; [| reflexivity].
  destruct r as [| c r]; [reflexivity |].
  cbn [Json.truthy PyStr.truthy negb JsonOps.py_eq].
  change (String.eqb (String c r) EmptyString) with false. cbn [orb].
  destruct (String.eqb (String c r) name); reflexivity.
Qed.

(** *** The requests of a run *)

Lemma geoloc_display_weather_quiet wd : quiet_only (display_weather wd).
Proof.
  unfold WeatherGeoloc.display_weather, WeatherGeoloc.header_name, Weather.print_field.
  CallsFacts.quiet_tac.
Qed.

Lemma geoloc_lookup_http_count location st :
  http_count (trace (snd (get_weather_by_location location st)))
  = http_count (trace st) + (if Weather.api_key_present API_KEY then 1 else 0).
Proof.
  unfold WeatherGeoloc.get_weather_by_location.
  destruct (Weather.api_key_present API_KEY); cbn [negb].
  - apply MoreWeatherFacts.http_count_guarded_request.
    + intros resp. CallsFacts.quiet_tac.
    + intros e. destruct (exn_cls e); CallsFacts.quiet_tac.
  - unfold bind, print, ret. cbn [snd].
    rewrite (MoreWeatherFacts.http_count_emit_quiet World (EvPrint _)) by exact I. lia.
Qed.

(** X25. A run of the location script sends at most one request; it sends
    none when the API key is unset or empty, none when the input is at its
    end or interrupted, and none for a blank location. *)
Theorem geoloc_main_request_budget stdin st :
  let n := http_count (trace (snd (main stdin st))) - http_count (trace st) in
  http_count (trace st) <= http_count (trace (snd (main stdin st)))
  /\ n <= 1
  /\ (Weather.api_key_present API_KEY = false -> n = 0)
  /\ ((forall location, hd_error stdin = Some (Line location) ->
                        PyStr.truthy (PyStr.strip location) = false) -> n = 0).
Proof.
  unfold WeatherGeoloc.main.
  set (st0 := emit (EvInput "Location?: ")
                (emit (EvPrint "===========================================")
                   (emit (EvPrint "Weather Information Program with Geolocation") st))).
  assert (H0 : http_count (trace st0) = http_count (trace st)).
  { subst st0. rewrite !(MoreWeatherFacts.http_count_emit_quiet World) by exact I.
    reflexivity. }
  destruct stdin as [| [location |] rest];
    unfold Weather.terminated_by_user, Weather.unexpected_error; cbn [fst snd hd_error];
    try (rewrite (MoreWeatherFacts.http_count_emit_quiet World (EvPrint _)) by exact I;
         repeat split; intros; lia).
  destruct (PyStr.truthy (PyStr.strip location)) eqn:Hl; cbn [negb].
  - pose proof (geoloc_lookup_http_count location st0) as H1.
    assert (Hblank : (forall l, Some (Line location) = Some (Line l) ->
                                PyStr.truthy (PyStr.strip l) = false) -> False).
    { intros H. specialize (H location eq_refl). congruence. }
    destruct (get_weather_by_location location st0) as [[wd | e] st1]; cbn [snd] in H1.
    + destruct (Json.truthy wd).
      * pose proof (MoreWeatherFacts.http_count_quiet_only World _ st1
                      (geoloc_display_weather_quiet wd)) as H2.
        destruct (display_weather wd st1) as [[u | e] st2]; cbn [fst snd] in *;
          try rewrite (MoreWeatherFacts.http_count_emit_quiet World (EvPrint _)) by exact I;
          destruct (Weather.api_key_present API_KEY);
          repeat split; intros; try (exfalso; auto; fail); try discriminate; lia.
      * cbn [snd].
        rewrite (MoreWeatherFacts.http_count_emit_quiet World (EvPrint _)) by exact I.
        destruct (Weather.api_key_present API_KEY);
          repeat split; intros; try (exfalso; auto; fail); try discriminate; lia.
    + cbn [snd].
      rewrite (MoreWeatherFacts.http_count_emit_quiet World (EvPrint _)) by exact I.
      destruct (Weather.api_key_present API_KEY);
        repeat split; intros; try (exfalso; auto; fail); try discriminate; lia.
  - cbn [snd].
    rewrite (MoreWeatherFacts.http_count_emit_quiet World (EvPrint _)) by exact I.
    repeat split; intros; lia.
Qed.

End Facts.

End GeolocFacts.

(** ** The connection test *)

Module TestApiFacts.
Import TestApi.

Section Facts.
Variable World : Type.
Variable provider : string -> string -> World -> result http_response * World.
Variable write_file : string -> string -> World -> result unit * World.
Variable env_key : option string.
Variable float_repr : float -> string.
Variable container_repr : json -> string.

#[local] Abbreviation tstate := (tstate World).
#[local] Abbreviation probe := (probe World provider float_repr container_repr).
#[local] Abbreviation guarded_probe :=
  (guarded_probe World provider float_repr container_repr).
#[local] Abbreviation ask_and_save_key := (ask_and_save_key World write_file).
#[local] Abbreviation test_api_connection :=
  (test_api_connection World provider write_file env_key float_repr container_repr).

Lemma prints_tret {A} (a : A) : prints_only (World := World) (tret a).
Proof.
  intros st. exists []. rewrite List.app_nil_r. repeat split. constructor.
Qed.

Lemma prints_tlift {A} (r : result A) : prints_only (World := World) (tlift r).
Proof.
  intros st. exists []. rewrite List.app_nil_r. repeat split. constructor.
Qed.

Lemma prints_tprint (s : string) : prints_only (World := World) (tprint s).
Proof.
  intros st. exists [Printed s]. repeat split. constructor; [exact I | constructor].
Qed.

Lemma prints_tbind {A B} (c : T World A) (k : A -> T World B) :
  prints_only c -> (forall a, prints_only (k a)) ->
  prints_only (tbind c k).
Proof.
  intros Hc Hk st. unfold tbind. destruct (Hc st) as (m1 & H1 & Q1 & S1).
  destruct (c st) as [[a | e] st1]; simpl in *.
  - destruct (Hk a st1) as (m2 & H2 & Q2 & S2). exists (m1 ++ m2)%list.
    rewrite H2, H1, List.app_assoc, S2, S1. repeat split. apply Forall_app; auto.
  - exists m1. auto.
Qed.

Lemma prints_if {A} (t : bool) (c1 c2 : T World A) :
  prints_only c1 -> prints_only c2 -> prints_only (if t then c1 else c2).
Proof. destruct t; auto. Qed.

Ltac prints_tac :=
  repeat first
    [ apply prints_tret | apply prints_tlift | apply prints_tprint
    | apply prints_if | apply prints_tbind | intro ].

(** The log of the guarded request: the announcement, the request, then
    prints only. *)
Lemma guarded_probe_log api_key st b st2 :
  guarded_probe api_key st = (b, st2) ->
  exists more,
    tlog st2
    = (tlog st
       ++ Printed "Sending request to WeatherAPI.com..."
          :: Requested api_key "Sao Paulo" :: more)%list
    /\ Forall printed more
    /\ tstdin st2 = tstdin st.
Proof.
  unfold TestApi.guarded_probe, TestApi.probe.
  unfold tbind at 1. unfold tprint at 1. unfold tbind at 1. unfold request.
  cbn [record tworld tstdin tlog].
  destruct (provider api_key "Sao Paulo" (tworld st)) as [[resp | e] w].
  - match goal with
    | |- context [match ?k ?s with _ => _ end] =>
        assert (Hk : prints_only k) by prints_tac;
        destruct (Hk s) as (more & Hl & Hq & Hs);
        destruct (k s) as [[b' | e] st3]
    end; cbn [snd tlog tstdin record] in *; intros E; injection E as Eb Es; subst;
      cbn [tlog tstdin record].
    + exists more. rewrite Hl, Hs, <- !List.app_assoc. repeat split. exact Hq.
    + exists (more ++ [Printed ("Error occurred: " ++ exn_msg e)])%list.
      rewrite Hl, Hs, <- !List.app_assoc. repeat split.
      apply Forall_app. split; [exact Hq | constructor; [exact I | constructor]].
  - intros E. injection E as Eb Es. subst. cbn [snd tlog tstdin record].
    exists [Printed ("Error occurred: " ++ exn_msg e)].
    rewrite <- !List.app_assoc. repeat split. constructor; [exact I | constructor].
Qed.

(** When the guarded request yields [True]. *)
Lemma guarded_probe_true api_key st :
  fst (guarded_probe api_key st) = true ->
  exists resp w data,
    provider api_key "Sao Paulo" (tworld st) = (Ok resp, w)
    /\ status_code resp = 200%Z
    /\ json_body resp = Ok data
    /\ Weather.py_in "current" data = Ok true.
Proof.
  unfold TestApi.guarded_probe, TestApi.probe.
  unfold tbind at 1. unfold tprint at 1. unfold tbind at 1. unfold request.
  cbn [record tworld tstdin tlog].
  destruct (provider api_key "Sao Paulo" (tworld st)) as [[resp | e] w]; [| discriminate].
  destruct (Z.eqb_spec (status_code resp) 200) as [Hs | Hs].
  - unfold tbind at 1. unfold tlift at 1.
    destruct (json_body resp) as [data | e] eqn:Hj; [| discriminate].
    unfold tbind at 1. unfold tprint at 1. unfold tbind at 1. unfold tlift at 1.
    destruct (Weather.py_in "current" data) as [[|] | e] eqn:Hin.
    + intros _. exists resp, w, data. auto.
    + unfold tbind, tprint, tret. cbn. discriminate.
    + discriminate.
  - unfold tbind at 1. unfold tprint at 1. unfold tbind at 1. unfold tprint at 1.
    unfold tbind at 1.
    destruct (Z.eqb (status_code resp) 401); [| destruct (Z.eqb (status_code resp) 403)];
      unfold tbind, tprint, tret; cbn; discriminate.
Qed.


(** X27. With the key in the environment the test is not interactive and
    cannot fail: it asks nothing and leaves the input alone, writes no
    file, returns a boolean whatever the provider does, and its actions are
    the announcement, one request with that key for Sao Paulo, and prints. *)
Theorem test_api_connection_with_env_key k st :
  env_key = Some k ->
  PyStr.truthy k = true ->
  exists b more,
    fst (test_api_connection st) = Returned b
    /\ tlog (snd (test_api_connection st))
       = (tlog st
          ++ Printed "Sending request to WeatherAPI.com..."
             :: Requested k "Sao Paulo" :: more)%list
    /\ Forall printed more
    /\ tstdin (snd (test_api_connection st)) = tstdin st.
Proof.
  intros Hk Ht. unfold TestApi.test_api_connection, key_in_env. rewrite Hk, Ht.
  destruct (guarded_probe k st) as [b st2] eqn:E.
  destruct (guarded_probe_log k st b st2 E) as (more & Hl & Hq & Hs).
  cbn [fst snd]. exists b, more. auto.
Qed.

(** X28. Without a key in the environment (unset, or empty) the test asks
    for one and saves what is typed, as it is, before using it: the file
    .env receives WEATHER_API_KEY= followed by the line, and the request
    that follows carries that line as its key, even when the line is
    empty. *)
Theorem test_api_connection_saves_typed_key typed rest st w :
  key_in_env env_key = false ->
  tstdin st = Line typed :: rest ->
  write_file ".env" ("WEATHER_API_KEY=" ++ typed) (tworld st) = (Ok tt, w) ->
  exists b more,
    fst (test_api_connection st) = Returned b
    /\ tlog (snd (test_api_connection st))
       = (tlog st
          ++ [Printed "No API key found in environment variables.";
              Asked "Please enter your WeatherAPI.com API key: ";
              Wrote ".env" ("WEATHER_API_KEY=" ++ typed);
              Printed "API key saved to .env file for future use.";
              Printed "Sending request to WeatherAPI.com...";
              Requested typed "Sao Paulo"]
          ++ more)%list
    /\ Forall printed more
    /\ tstdin (snd (test_api_connection st)) = rest.
Proof.
  intros Hk Hin Hw. unfold TestApi.test_api_connection, TestApi.ask_and_save_key.
  rewrite Hk. cbn [record tstdin tworld tlog]. rewrite Hin, Hw.
  match goal with
  | |- context [guarded_probe typed ?s] =>
      destruct (guarded_probe typed s) as [b st2] eqn:E;
      destruct (guarded_probe_log typed s b st2 E) as (more & Hl & Hq & Hs)
  end.
  cbn [fst snd tlog tstdin record] in *.
  exists b, more. rewrite Hl, Hs, <- !List.app_assoc. repeat split. exact Hq.
Qed.

End Facts.

End TestApiFacts.

(** ** The further statements on concrete runs *)

Module MoreRuns.
Import Scenario.
Import Cases.
Import WeatherBot.

#[local] Abbreviation is_weather_query llm := (WeatherBot.is_weather_query unit llm).
#[local] Abbreviation extract_location_from_query llm :=
  (WeatherBot.extract_location_from_query unit llm).
#[local] Abbreviation get_weather_by_location http :=
  (WeatherBot.get_weather_by_location unit http).
#[local] Abbreviation generate_weather_response llm :=
  (WeatherBot.generate_weather_response unit llm plain_repr plain_repr).
#[local] Abbreviation handle_user_query llm http :=
  (WeatherBot.handle_user_query unit llm http plain_repr plain_repr).
#[local] Abbreviation loop_body llm http :=
  (WeatherBot.loop_body unit llm http plain_repr plain_repr).

Lemma handle_user_query_asks_for_location_witness :
  handle_user_query no_place finds_paris Claude "Will it be sunny tomorrow?" start
  = (Ok clarification_message, extracted Claude "Will it be sunny tomorrow?").
Proof.
  apply (MoreBotFacts.handle_user_query_asks_for_location unit no_place finds_paris
           plain_repr plain_repr Claude "Will it be sunny tomorrow?" start
           (classified Claude "Will it be sunny tomorrow?")
           (extracted Claude "Will it be sunny tomorrow?") None);
    [reflexivity | reflexivity | left; reflexivity].
Defined.

Lemma extractor_failure_asks_for_location_witness :
  fst (handle_user_query extractor_down finds_paris Groq "Weather in Paris?" start)
  = Ok clarification_message.
Proof.
  destruct (MoreBotFacts.extractor_failure_asks_for_location unit extractor_down finds_paris
              plain_repr plain_repr Groq "Weather in Paris?" start
              (classified Groq "Weather in Paris?") backend_down tt eq_refl eq_refl)
    as [_ H].
  rewrite H. reflexivity.
Defined.

Lemma extract_sentinel_by_binding_witness :
  fst (extract_location_from_query lowercase_sentinel Gemini "Will it rain?" start)
  = Ok (Some "Unknown")
  /\ fst (extract_location_from_query lowercase_sentinel OpenAI "Will it rain?" start)
     = Ok None
  /\ fst (extract_location_from_query no_place Gemini "Will it rain?" start) = Ok None.
Proof.
  split; [| split].
  - apply (MoreBotFacts.extract_sentinel_by_binding unit lowercase_sentinel
             Gemini "Will it rain?" start " " "Unknown" EmptyString tt); reflexivity.
  - apply (MoreBotFacts.extract_sentinel_by_binding unit lowercase_sentinel
             OpenAI "Will it rain?" start " " "Unknown" EmptyString tt); reflexivity.
  - apply (MoreBotFacts.extract_sentinel_by_binding unit no_place
             Gemini "Will it rain?" start " " "UNKNOWN" " " tt); reflexivity.
Defined.

Lemma blank_extraction_asks_for_location_witness :
  fst (extract_location_from_query blank_extractor OpenAI "Will it rain?"
         (classified OpenAI "Will it rain?")) = Ok (Some EmptyString)
  /\ handle_user_query blank_extractor finds_paris OpenAI "Will it rain?" start
     = (Ok clarification_message, extracted OpenAI "Will it rain?").
Proof.
  apply (MoreBotFacts.blank_extraction_asks_for_location unit blank_extractor finds_paris
           plain_repr plain_repr OpenAI "Will it rain?" start
           (classified OpenAI "Will it rain?") "  " tt);
    reflexivity.
Defined.

Lemma handle_user_query_success_witness :
  fst (handle_user_query sunny finds_paris Claude "What's the weather in Paris?" start)
  = Ok "It is sunny in Paris.".
Proof.
  rewrite (PipelineFacts.handle_user_query_success unit sunny finds_paris
             plain_repr plain_repr Claude "What's the weather in Paris?" start
             (classified Claude "What's the weather in Paris?")
             (extracted Claude "What's the weather in Paris?")
             "Paris" (mk_resp 200%Z EmptyString (Ok paris)) tt paris paris_ctx
             " It is sunny in Paris. " tt
             eq_refl eq_refl eq_refl eq_refl eq_refl eq_refl eq_refl
             Runs.paris_has_fields eq_refl).
  reflexivity.
Defined.

Lemma handle_user_query_raises_on_malformed_record_witness :
  fst (handle_user_query sunny finds_error_body Gemini "Weather in Paris?" start)
  = Raise (mk_exn KeyError "'location'").
Proof.
  destruct (PipelineFacts.handle_user_query_raises_on_malformed_record unit sunny
              finds_error_body plain_repr plain_repr Gemini "Weather in Paris?" start
              (classified Gemini "Weather in Paris?")
              (extracted Gemini "Weather in Paris?")
              "Paris" error_body
              (mk_state tt [EvLLM (request Gemini Classify "Weather in Paris?" None);
                            EvLLM (request Gemini Extract "Weather in Paris?" None);
                            EvHTTP (mk_http (ByName "Paris") 10)])
              (mk_exn KeyError "'location'")
              eq_refl eq_refl eq_refl eq_refl eq_refl eq_refl)
    as [H _].
  rewrite H. reflexivity.
Defined.

Lemma fallback_raises_on_non_numeric_cloud_witness :
  exists e',
    exn_cls e' = TypeError
    /\ fst (generate_weather_response composer_down Groq "Is it cloudy in Paris?"
              (paris_with_cloud JNull) start) = Raise e'.
Proof.
  destruct (PipelineFacts.fallback_raises_on_non_numeric_cloud unit composer_down
              plain_repr plain_repr Groq "Is it cloudy in Paris?"
              (paris_with_cloud JNull) start backend_down tt
              (JStr "Paris") (JStr "France") (JInt 30) (JInt 40) JNull (JInt 15) (JStr "Sunny")
              (Runs.paris_with_cloud_has_fields JNull) eq_refl I)
    as (e' & Hc & H).
  exists e'. split; [exact Hc |]. rewrite H. reflexivity.
Defined.


Lemma exit_keyword_any_case_breaks_witness :
  loop_body sunny finds_paris Claude (Some (Line "GoodBye")) start
  = (Break, emit (EvPrint "Goodbye! Have a great day!") (emit (EvInput "Ask?: ") start)).
Proof.
  apply (LoopFacts.exit_keyword_any_case_breaks unit sunny finds_paris
           plain_repr plain_repr Claude start "GoodBye" "goodbye").
  - simpl. auto.
  - reflexivity.
Defined.

Lemma blank_line_reprompts_witness :
  loop_body sunny finds_paris Claude (Some (Line "   ")) start
  = (Continue,
     emit (EvPrint "Please ask a question about the weather.")
       (emit (EvInput "Ask?: ") start)).
Proof.
  destruct (LoopFacts.blank_line_reprompts unit sunny finds_paris
              plain_repr plain_repr Claude start "   " eq_refl) as [H _].
  exact H.
Defined.

Lemma script_exits_without_keys_witness :
  BotScript.script unit sunny finds_paris plain_repr plain_repr (Some "key") (Some EmptyString)
    OpenAI 3 [Line "Weather in Paris?"] start
  = (BotScript.StartupExit 1,
     emit (EvPrint "Error: OpenAI API key not found. Please add OPENAI_API_KEY to your .env file.")
       start).
Proof.
  apply (LoopFacts.script_exits_without_keys unit sunny finds_paris plain_repr plain_repr
           (Some "key") (Some EmptyString) OpenAI 3 [Line "Weather in Paris?"] start).
  right. reflexivity.
Defined.

(** *** The coordinate script *)

Lemma validate_coordinates_accepts_closed_range_witness :
  Weather.validate_coordinates bounds_float "90" "latitude" = Ok 90%float
  /\ Weather.validate_coordinates bounds_float "-180" "longitude" = Ok (-180)%float.
Proof.
  split.
  - destruct (MoreWeatherFacts.validate_coordinates_accepts_closed_range bounds_float
                "90" 90%float eq_refl) as [H _].
    apply H; vm_compute; reflexivity.
  - destruct (MoreWeatherFacts.validate_coordinates_accepts_closed_range bounds_float
                "-180" (-180)%float eq_refl) as [_ H].
    apply H; vm_compute; reflexivity.
Defined.

Lemma validate_coordinates_only_format_message_witness :
  Weather.validate_coordinates bounds_float "north" "latitude"
  = Raise (mk_exn ValueError "Invalid latitude format. Please enter a number.").
Proof.
  exact (f_equal (@Raise float)
           (MoreWeatherFacts.validate_coordinates_only_format_message bounds_float
              "north" "latitude"
              (mk_exn ValueError "Invalid latitude format. Please enter a number.")
              eq_refl)).
Defined.

Lemma ask_coordinate_skips_refused_witness :
  Weather.ask_coordinate unit bounds_float "Latitude?: " "latitude"
    [Line "north"; Line "91"; Line "45"; Line "10"] start
  = (Weather.Got 45%float, [Line "10"],
     mk_state tt
       [EvInput "Latitude?: ";
        EvPrint "Error: Invalid latitude format. Please enter a number.";
        EvInput "Latitude?: ";
        EvPrint "Error: Invalid latitude format. Please enter a number.";
        EvInput "Latitude?: "]).
Proof.
  apply (MoreWeatherFacts.ask_coordinate_skips_refused unit bounds_float
           "Latitude?: " "latitude" ["north"; "91"] "45" 45%float [Line "10"] start).
  - repeat constructor; eexists; vm_compute; reflexivity.
  - vm_compute. reflexivity.
Defined.

Lemma main_requests_validated_coordinates_witness :
  exists more,
    trace (snd (Weather.main unit finds_sao_paulo bounds_float (Some "key")
                  plain_repr plain_repr [Line "-90"; Line "180"] start))
    = ([] ++ [EvPrint "Weather Information Program";
              EvPrint "==========================";
              EvInput "Latitude?: "; EvInput "Longitude?: ";
              EvHTTP (mk_http (ByCoords (-90)%float 180%float) 10)]
       ++ more)%list
    /\ Forall Spec.quiet more.
Proof.
  apply (MoreWeatherFacts.main_requests_validated_coordinates unit finds_sao_paulo
           bounds_float (Some "key") plain_repr plain_repr "-90" "180" []
           (-90)%float 180%float start);
    vm_compute; reflexivity.
Defined.

Lemma main_requests_nan_latitude_witness :
  Weather.validate_coordinates bounds_float "nan" "latitude" = Ok PrimFloat.nan
  /\ In (EvHTTP (mk_http (ByCoords PrimFloat.nan 45%float) 10))
       (trace (snd (Weather.main unit finds_sao_paulo bounds_float (Some "key")
                      plain_repr plain_repr [Line "nan"; Line "45"] start))).
Proof.
  apply (MoreWeatherFacts.main_requests_nan_latitude unit finds_sao_paulo
           bounds_float (Some "key") plain_repr plain_repr "nan" "45" []
           45%float start);
    vm_compute; reflexivity.
Defined.

Lemma main_reports_failed_lookup_witness :
  fst (Weather.main unit server_error bounds_float (Some "key") plain_repr plain_repr
         [Line "45"; Line "90"] start) = Weather.Finished.
Proof.
  assert (Hf : Spec.lookup_failed
                 (Ok (mk_resp 500%Z "Internal Server Error"
                        (Raise (mk_exn ValueError "no JSON")))))
    by (simpl; discriminate).
  exact (proj1 (MoreWeatherFacts.main_reports_failed_lookup unit server_error
                  bounds_float (Some "key") plain_repr plain_repr "45" "90" []
                  45%float 90%float start
                  (Ok (mk_resp 500%Z "Internal Server Error"
                         (Raise (mk_exn ValueError "no JSON")))) tt
                  eq_refl eq_refl eq_refl eq_refl Hf)).
Defined.

Lemma display_weather_prints_record_witness :
  fst (Weather.display_weather unit plain_repr plain_repr sao_paulo start) = Ok tt.
Proof.
  exact (f_equal fst
           (MoreWeatherFacts.display_weather_prints_record unit plain_repr plain_repr
              [("location", sao_paulo_location); ("current", sao_paulo_current)]
              sao_paulo_current sao_paulo_location (JObj [("text", JStr "Sunny")])
              (JInt 30) (JInt 40) (JInt 80) (JInt 15) (JStr "Sunny") (JInt 32) (JInt 7)
              (JStr "Sao Paulo") (JStr "Sao Paulo") (JStr "Brazil") (JStr "2025-02-26 11:38")
              start
              eq_refl eq_refl eq_refl eq_refl eq_refl eq_refl eq_refl
              eq_refl eq_refl eq_refl eq_refl eq_refl eq_refl eq_refl)).
Defined.

(** *** The location script *)

Lemma blank_location_exits_witness :
  fst (WeatherGeoloc.main unit finds_paris (Some "key") plain_repr plain_repr
         [Line "   "] start) = Weather.SysExit 1.
Proof.
  rewrite (GeolocFacts.blank_location_exits unit finds_paris (Some "key")
             plain_repr plain_repr "   " [] start eq_refl).
  reflexivity.
Defined.

Lemma geoloc_failed_lookup_is_absence_witness :
  WeatherGeoloc.get_weather_by_location unit not_found (Some "key") "Zzqxplorp" start
  = (Ok JNull,
     mk_state tt
       [EvHTTP (mk_http (ByName "Zzqxplorp") 10);
        EvPrint "Error: Could not find location 'Zzqxplorp'"]).
Proof.
  apply (GeolocFacts.geoloc_failed_lookup_is_absence unit not_found (Some "key")
           "Zzqxplorp" start
           (Ok (mk_resp 400%Z "no match" (Raise (mk_exn ValueError "no JSON")))) tt).
  - reflexivity.
  - reflexivity.
  - simpl. discriminate.
Defined.

Lemma header_name_adds_distinct_region_witness :
  fst (WeatherGeoloc.header_name unit plain_repr plain_repr (JObj campinas) start)
  = Ok (JStr "Campinas, Sao Paulo")
  /\ fst (WeatherGeoloc.header_name unit plain_repr plain_repr sao_paulo_location start)
     = Ok (JStr "Sao Paulo").
Proof.
  split.
  - rewrite (GeolocFacts.header_name_adds_distinct_region unit plain_repr plain_repr
               campinas "Campinas" (Some "Sao Paulo") start eq_refl eq_refl).
    reflexivity.
  - exact (f_equal fst
             (GeolocFacts.header_name_adds_distinct_region unit plain_repr plain_repr
                [("name", JStr "Sao Paulo"); ("region", JStr "Sao Paulo");
                 ("country", JStr "Brazil"); ("lat", JInt (-23));
                 ("lon", JInt (-46)); ("localtime", JStr "2025-02-26 11:38")]
                "Sao Paulo" (Some "Sao Paulo") start eq_refl eq_refl)).
Defined.

(** *** The connection test *)


Lemma test_api_connection_with_env_key_witness :
  exists b more,
    fst (TestApi.test_api_connection unit answers_sao_paulo accepts_write (Some "key")
           plain_repr plain_repr (fresh [Line "unused"])) = TestApi.Returned b
    /\ TestApi.tlog
         (snd (TestApi.test_api_connection unit answers_sao_paulo accepts_write (Some "key")
                 plain_repr plain_repr (fresh [Line "unused"])))
       = ([] ++ TestApi.Printed "Sending request to WeatherAPI.com..."
             :: TestApi.Requested "key" "Sao Paulo" :: more)%list
    /\ Forall TestApi.printed more
    /\ TestApi.tstdin
         (snd (TestApi.test_api_connection unit answers_sao_paulo accepts_write (Some "key")
                 plain_repr plain_repr (fresh [Line "unused"])))
       = [Line "unused"].
Proof.
  apply (TestApiFacts.test_api_connection_with_env_key unit answers_sao_paulo
           accepts_write (Some "key") plain_repr plain_repr "key" (fresh [Line "unused"]));
    reflexivity.
Defined.

Lemma test_api_connection_saves_typed_key_witness :
  exists b more,
    fst (TestApi.test_api_connection unit answers_sao_paulo accepts_write None
           plain_repr plain_repr (fresh [Line EmptyString])) = TestApi.Returned b
    /\ TestApi.tlog
         (snd (TestApi.test_api_connection unit answers_sao_paulo accepts_write None
                 plain_repr plain_repr (fresh [Line EmptyString])))
       = ([] ++ [TestApi.Printed "No API key found in environment variables.";
                 TestApi.Asked "Please enter your WeatherAPI.com API key: ";
                 TestApi.Wrote ".env" ("WEATHER_API_KEY=" ++ EmptyString);
                 TestApi.Printed "API key saved to .env file for future use.";
                 TestApi.Printed "Sending request to WeatherAPI.com...";
                 TestApi.Requested EmptyString "Sao Paulo"]
          ++ more)%list
    /\ Forall TestApi.printed more
    /\ TestApi.tstdin
         (snd (TestApi.test_api_connection unit answers_sao_paulo accepts_write None
                 plain_repr plain_repr (fresh [Line EmptyString])))
       = [].
Proof.
  apply (TestApiFacts.test_api_connection_saves_typed_key unit answers_sao_paulo
           accepts_write None plain_repr plain_repr EmptyString [] (fresh [Line EmptyString])
           tt);
    reflexivity.
Defined.

End MoreRuns.
